(* ===== verification/_CoqProject ===== *)
-Q . S2P
Prelude.v
FixedPoint.v
PyArith.v
Binary64.v
IEEE.v
StrFormat.v
InfoMessage.v
Training.v
ReadPackage.v
Errors.v
FloatProps.v
Walking.v
Rendering.v
