(* ===== verification/Prelude.v ===== *)
(** * A verification development of [hw_python_oop] ([src/homework.py])

    ** The program

    [src/homework.py] computes fitness statistics from sensor packages.
    Its parts, in the order the file declares them, and how they interact:

    - [InfoMessage] (lines 4-25): a dataclass of five fields and a class
      constant [MESSAGE], a [str.format] template; [get_message] renders the
      fields into it with [MESSAGE.format( *asdict(self).values())].
    - [Training] (lines 28-68): the base class.  Its constructor stores
      [action], [duration] and [weight]; [get_distance] and [get_mean_speed]
      are the default formulas; [get_spent_calories] raises
      [NotImplementedError]; [show_training_info] builds an [InfoMessage]
      from the class name, the duration and the three computed values.
    - [Running], [SportsWalking], [Swimming] (lines 71-152): subclasses with
      their own class constants; [SportsWalking] and [Swimming] extend the
      constructor, [Swimming] overrides [get_mean_speed], every subclass
      overrides [get_spent_calories].  Method calls through [self] are
      dynamically dispatched.
    - [read_package] (lines 155-164): a dictionary from workout codes to
      classes; an unknown code raises [ValueError], a known one calls the
      class with the data list spread as positional arguments.
    - [main] and the driver (lines 167-182): [main] prints the rendered
      message of a training; the driver runs [read_package] and [main] over
      three sample packages.

    All arithmetic is Python arithmetic on [int] and [float] values:
    integers are unbounded, floats are IEEE-754 binary64 rounded to nearest
    even, division and floor division by zero raise [ZeroDivisionError],
    and mixed [int]/[float] operations convert the integer first, raising
    [OverflowError] when it is beyond the float range.

    ** The development (file by file, in dependency order)

    - [Prelude] (this file): Python exceptions ([exn]), the result monad
      [result] with its [let*] notation in [py_scope], the relation
      [result_rel] lifting an equivalence to results, the [pyhw] hint
      databases and the generic lemmas on results, rationals and strings.
    - [FixedPoint]: CPython's ['%.<p>f'] of a number given by its sign bit
      and its exact magnitude (rounding half to even), the parser of such
      strings, and the round trip and error bound of the rendering.
    - [PyArith]: the interface [PyArith] of the Python arithmetic the
      program uses (literals, [+ - * / // **], [format(v, spec)]), as a
      typeclass against which every method is written.
    - [Binary64]: its instance for CPython's [int] and [float] ([pynum]),
      on the kernel's primitive binary64 floats: correctly rounded literals
      and [int] conversions ([float_of_Q], [float_of_int], with
      [OverflowError]), [long_true_divide], [_float_div_mod] transcribed
      operation by operation, [float_pow]'s special cases, [str] as the
      shortest repr and [format(x, '.<p>f')] on the exact value of a float.
    - [IEEE]: the predicates of [Binary64] read off [Prim2SF] and the
      signed-zero facts of IEEE-754 arithmetic ([FloatAxioms]), up to
      [_float_div_mod] of a dividend below the divisor.
    - [StrFormat]: [str.format] on auto-numbered replacement fields, the
      part of its template language that [MESSAGE] uses, with CPython's
      errors for malformed templates.
    - [InfoMessage]: the dataclass, [MESSAGE] and [get_message].
    - [Training]: the class hierarchy as a closed sum of objects, the class
      constants as functions of the class, each method body of the source as
      one definition ([Training_get_distance], [Swimming_get_mean_speed],
      [Running_get_spent_calories], ...), the dynamic dispatch that Python's
      method resolution performs, the constructors with their arity check,
      and [show_training_info].
    - [ReadPackage]: [read_package], [main] with standard output as a list of
      lines, and the driver loop, which stops at the first exception after
      printing the lines of the packages before it.
    - [Errors]: the interface [ArithErrors] (each operator raises only
      [ZeroDivisionError] or [OverflowError]), the theorems proved against
      it alone, and CPython's instance of it.
    - [FloatProps]: the program on CPython's numbers: which values are
      floats, zero durations, overflowing readings, reports always printed.
    - [Walking]: the walking formula on floats.
    - [Rendering]: the rendering contract of section 8 of the spec.

    ** What the theorems show (by group)

    - dispatch and errors ([ReadPackage], [Training]): [read_package]
      returns an object of the class its code names, raises [ValueError]
      with the code in its message for every other code, and raises
      [TypeError] when the data list has the wrong length; construction
      binds the arguments in order; [show_training_info] raises
      [NotImplementedError] on a bare [Training]; the swimming speed reads
      neither the stroke count nor the weight; the driver only appends;
    - which exceptions escape ([Errors]): for every arithmetic obeying
      [ArithErrors], CPython's included, the subclasses' reports raise only
      arithmetic exceptions and the driver stops only on those, on the
      [ValueError] of an unknown code or on an arity [TypeError];
    - the program on CPython's numbers ([FloatProps], [Walking]): a zero
      duration or a zero height never gives a report; an [int] action
      beyond the float range raises [OverflowError]; when the squared
      speed is below the height, the floor division is [0.0] and the
      calories do not depend on the height (a finding);
    - the rendering ([InfoMessage], [Rendering]): [get_message] is the
      template with the four fields rendered by [format(x, '.3f')] in
      order, and every computed report is rendered without an exception,
      each number reading back within half a unit of its third decimal.

    No theorem bounds the rounding error of the formulas, that is, the
    distance between the float a formula gives and the real number the
    spec's formula denotes: the concrete examples of [FloatProps] show
    such errors ([157.50000000000003] for the sample walk).

    ** Bounds and fuel

    The count of decimal digits of a natural number ([FixedPoint.dlen]) is
    computed with fuel, the number of binary digits of the argument, which
    bounds the number of decimal digits; a lemma shows the fuel is always
    enough.  The shortest repr ([Binary64.shortest_digits]) tries 1, 2, ...
    significant digits with a fuel of 17, the number of digits that always
    reads back a binary64 number; [Binary64.strip_zeros] removes at most
    17 trailing zeros of those digits.  Floats are binary64 ([prec = 53],
    [emax = 1024]), as CPython's; [int]s are unbounded [Z].

    ** Not modelled

    Printing itself (the model returns the printed lines), the
    [if __name__ == '__main__'] test, Python's keyword arguments (the program
    passes none) and the format specifications other than the empty one and
    [.<p>f] (the program uses no others: [StrFormat] rejects them with
    [ValueError], which Python does only for malformed ones).  The messages
    of exceptions raised by the interpreter's arithmetic ([ZeroDivisionError],
    [OverflowError]) vary across Python versions and are not modelled; the
    messages of the exceptions the program raises itself are.  The libm
    [pow] that [float ** int] calls is modelled as the correctly rounded
    power (glibc's is within one unit in the last place); [str] of a float
    ([Binary64.float_repr]) is modelled for [format(x, '')] but the program
    never formats a number with an empty specification.
*)

From Stdlib Require Import ZArith QArith Qround Ascii String List Lia Lqa Bool.
From Stdlib Require Import Morphisms RelationClasses Setoid.
Import ListNotations.

(** ** Python exceptions

    The exceptions the modelled code can raise.  [ValueError],
    [NotImplementedError] and [TypeError] carry the message the program (or
    the call protocol) builds; the arithmetic ones carry none. *)

Inductive exn : Type :=
| ValueError (msg : string)
| TypeError (msg : string)
| IndexError (msg : string)
| KeyError (msg : string)
| AttributeError (msg : string)
| NotImplementedError (msg : string)
| ZeroDivisionError
| OverflowError.

(** ** The result monad *)

Inductive result (A : Type) : Type :=
| Ok (a : A)
| Err (e : exn).

Arguments Ok {A} a.
Arguments Err {A} e.

Definition bind {A B : Type} (m : result A) (k : A -> result B) : result B :=
  match m with
  | Ok a => k a
  | Err e => Err e
  end.

Definition is_ok {A : Type} (m : result A) : bool :=
  match m with Ok _ => true | Err _ => false end.

Definition is_err {A : Type} (m : result A) : bool := negb (is_ok m).

Declare Scope py_scope.
Delimit Scope py_scope with py.

Notation "'let*' x ':=' c 'in' k" := (bind c (fun x => k))
  (at level 10, x name, c at level 100, k at level 200) : py_scope.

Open Scope py_scope.

(** The list of results of a sequence of calls, stopping at the first
    exception (Python evaluates arguments and list items left to right). *)
Fixpoint all_ok {A : Type} (l : list (result A)) : result (list A) :=
  match l with
  | [] => Ok []
  | m :: l' => let* a := m in let* r := all_ok l' in Ok (a :: r)
  end.

(** ** Lifting a relation to results *)

Inductive result_rel {A : Type} (R : A -> A -> Prop) : result A -> result A -> Prop :=
| rr_ok a b : R a b -> result_rel R (Ok a) (Ok b)
| rr_err e : result_rel R (Err e) (Err e).

Create HintDb pyhw.
Create Rewrite HintDb pyhw_rw.
#[export] Hint Constants Transparent : pyhw.
#[export] Hint Constructors result_rel : pyhw.

(** ** Generic lemmas on results *)

Section ResultLemmas.
Context {A B : Type}.

Lemma bind_Ok (a : A) (k : A -> result B) : bind (Ok a) k = k a.
Proof. reflexivity. Qed.

Lemma bind_Err (e : exn) (k : A -> result B) : bind (Err e) k = Err e.
Proof. reflexivity. Qed.

Lemma bind_eq_Ok (m : result A) (k : A -> result B) (b : B) :
  bind m k = Ok b <-> exists a, m = Ok a /\ k a = Ok b.
Proof.
  destruct m as [a|e]; simpl; split.
  - intros H. exists a. auto.
  - intros (a' & Ha & Hk). injection Ha as <-. exact Hk.
  - discriminate.
  - intros (a' & Ha & _). discriminate.
Qed.

Lemma bind_eq_Err (m : result A) (k : A -> result B) (e : exn) :
  bind m k = Err e <-> m = Err e \/ exists a, m = Ok a /\ k a = Err e.
Proof.
  destruct m as [a|e']; simpl; split.
  - intros H. right. exists a. auto.
  - intros [H | (a' & Ha & Hk)]; [discriminate|]. injection Ha as <-. exact Hk.
  - intros H. left. congruence.
  - intros [H | (a' & Ha & _)]; [congruence | discriminate].
Qed.

Lemma bind_ext (m : result A) (k1 k2 : A -> result B) :
  (forall a, m = Ok a -> k1 a = k2 a) -> bind m k1 = bind m k2.
Proof. destruct m; simpl; auto. Qed.

Lemma is_err_bind (m : result A) (k : A -> result B) :
  is_err m = true -> is_err (bind m k) = true.
Proof. destruct m; simpl; easy. Qed.
End ResultLemmas.

#[export] Hint Rewrite @bind_Ok @bind_Err : pyhw_rw.

(** [result_rel R] is an equivalence when [R] is one, and [bind] respects it
    when the continuation does. *)
#[export] Instance result_rel_Equivalence {A : Type} (R : A -> A -> Prop) :
  Equivalence R -> Equivalence (result_rel R).
Proof.
  intros HR. split.
  - intros [a|e]; constructor. reflexivity.
  - intros x y H; inversion H; constructor. symmetry; assumption.
  - intros x y z H1 H2; inversion H1; subst; inversion H2; subst; constructor.
    etransitivity; eassumption.
Qed.

Lemma bind_result_rel {A B : Type} (RA : A -> A -> Prop) (RB : B -> B -> Prop)
      (m1 m2 : result A) (k1 k2 : A -> result B) :
  result_rel RA m1 m2 ->
  (forall a b, RA a b -> result_rel RB (k1 a) (k2 b)) ->
  result_rel RB (bind m1 k1) (bind m2 k2).
Proof. intros H Hk. inversion H; subst; simpl; auto with pyhw. Qed.

(** ** Tactics *)

(** Split every [bind ... = Ok _] hypothesis into its two halves. *)
Ltac inv_bind :=
  repeat match goal with
  | H : bind _ _ = Ok _ |- _ =>
      apply bind_eq_Ok in H; destruct H as (? & ? & H)
  | H : Ok _ = Ok _ |- _ => injection H as H
  | H : Ok _ = Err _ |- _ => discriminate H
  | H : Err _ = Ok _ |- _ => discriminate H
  end.

(** ** Rationals *)

Lemma Qle_neq_lt (x y : Q) : x <= y -> ~ x == y -> x < y.
Proof. intros H1 H2. apply Qle_lt_or_eq in H1 as [H|H]; [exact H | contradiction]. Qed.

Lemma Qeq_bool_false_neq (x y : Q) : Qeq_bool x y = false -> ~ x == y.
Proof. intros H E. apply Qeq_bool_iff in E. congruence. Qed.

Lemma Qeq_bool_neq_false (x y : Q) : ~ x == y -> Qeq_bool x y = false.
Proof.
  intros H. destruct (Qeq_bool x y) eqn:E; [|reflexivity].
  exfalso. apply H. apply Qeq_bool_iff. exact E.
Qed.

Lemma inject_Z_sub (x y : Z) : inject_Z (x - y) == inject_Z x - inject_Z y.
Proof. unfold Z.sub. rewrite inject_Z_plus, inject_Z_opp. reflexivity. Qed.

#[export] Hint Resolve Qeq_bool_neq_false Qeq_bool_false_neq : pyhw.

(** ** Strings *)

Section StringLemmas.
Local Open Scope string_scope.

Lemma string_app_assoc (s1 s2 s3 : string) : s1 ++ s2 ++ s3 = (s1 ++ s2) ++ s3.
Proof. induction s1 as [|c s1 IH]; simpl; [reflexivity | now rewrite IH]. Qed.

Lemma string_app_nil_r (s : string) : s ++ "" = s.
Proof. induction s as [|c s IH]; simpl; [reflexivity | now rewrite IH]. Qed.

(** Split at the first occurrence of [sep]: the text before it and, when
    [sep] occurs, the text after it. *)
Fixpoint split_at (sep : Ascii.ascii) (s : string) : string * option string :=
  match s with
  | EmptyString => (EmptyString, None)
  | String c s' =>
      if Ascii.eqb c sep then (EmptyString, Some s')
      else let (a, b) := split_at sep s' in (String c a, b)
  end.

Lemma split_at_sep (sep : Ascii.ascii) (s : string) :
  split_at sep (String sep s) = ("", Some s).
Proof. simpl. now rewrite Ascii.eqb_refl. Qed.

Lemma string_length_app (s1 s2 : string) :
  String.length (s1 ++ s2) = (String.length s1 + String.length s2)%nat.
Proof. induction s1 as [|c s1 IH]; simpl; [reflexivity | now rewrite IH]. Qed.
End StringLemmas.

#[export] Hint Rewrite string_app_nil_r string_length_app : pyhw_rw.
