(* ===== verification/FixedPoint.v ===== *)
(** * Fixed-point rendering of numbers, as ['{:.3f}'] does

    Python renders a number [x] under the presentation type ['f'] with
    precision [p] from the exact value of [x] (for a float, the exact value
    of the binary64 number): it rounds [x * 10^p] to the nearest integer,
    ties to the even one ([_Py_dg_dtoa] in mode 3), writes the integer part
    with no leading zero, a point and exactly [p] fractional digits, and
    prefixes ["-"] when the sign of [x] is negative (also when the rounded
    value is zero, as for [-0.0001] or [-0.0]).

    This file holds that rendering for a sign and a nonnegative rational
    magnitude ([format_fixed]), the parser of the strings it produces
    ([parse_fixed]), their round trip and the error bound of the
    rounding, which [Rendering] applies to the report. *)

From Stdlib Require Import ZArith NArith QArith Qabs String Ascii List Lia Lqa.
From S2P Require Import Prelude.
Import ListNotations.
Local Open Scope string_scope.

(** ** Decimal digits *)

Definition digit_char (d : N) : ascii := ascii_of_N (48 + d).

Definition char_digit (c : ascii) : option N :=
  let n := N_of_ascii c in
  if (48 <=? n)%N && (n <=? 57)%N then Some (n - 48)%N else None.

(** The last [k] decimal digits of [n], zero padded on the left. *)
Fixpoint ndigits (k : nat) (n : N) : string :=
  match k with
  | O => ""
  | S k' => ndigits k' (n / 10) ++ String (digit_char (n mod 10)) ""
  end.

(** The number of decimal digits of [n] (one for zero), with fuel: the
    number of binary digits bounds it ([dlen_enough]). *)
Fixpoint dlen_fuel (fuel : nat) (n : N) : nat :=
  match fuel with
  | O => 1
  | S f => if (n <? 10)%N then 1 else S (dlen_fuel f (n / 10))
  end.

Definition dlen (n : N) : nat := dlen_fuel (N.size_nat n) n.

(** The decimal representation of [n], as Python's [str(int)] writes a
    nonnegative integer. *)
Definition show_N (n : N) : string := ndigits (dlen n) n.

(** Horner evaluation of a digit string, failing on a non-digit. *)
Fixpoint parse_digits (s : string) (acc : N) : option N :=
  match s with
  | EmptyString => Some acc
  | String c s' =>
      match char_digit c with
      | Some d => parse_digits s' (acc * 10 + d)
      | None => None
      end
  end.

(** ** Rounding half to even *)

(** [n / d] rounded to the nearest integer, ties to the even one. *)
Definition round_half_even (n : Z) (d : positive) : Z :=
  let q := (n / Z.pos d)%Z in
  let r := (n mod Z.pos d)%Z in
  match Z.compare (2 * r) (Z.pos d) with
  | Lt => q
  | Gt => q + 1
  | Eq => if Z.even q then q else q + 1
  end%Z.

(** [x * 10^p] rounded half to even. *)
Definition scaled_round (p : nat) (x : Q) : Z :=
  round_half_even (Qnum x * 10 ^ Z.of_nat p) (Qden x).

(** ** Rendering and parsing *)

Definition sign_prefix (neg : bool) : string := if neg then "-" else "".

(** The digits of a nonnegative scaled integer [r] read as [r / 10^p]. *)
Definition fixed_digits (p : nat) (r : N) : string :=
  match p with
  | O => show_N r
  | S _ => show_N (r / 10 ^ N.of_nat p) ++ "." ++ ndigits p (r mod 10 ^ N.of_nat p)
  end.

(** ['%.<p>f'] of a number of sign [neg] and magnitude [x >= 0]. *)
Definition format_fixed (p : nat) (neg : bool) (x : Q) : string :=
  sign_prefix neg ++ fixed_digits p (Z.to_N (scaled_round p x)).

(** Split at the first point. *)
Definition split_dot (s : string) : string * option string := split_at "." s.

(** Read back a string of [fixed_digits p]: the scaled integer. *)
Definition parse_fixed_digits (p : nat) (s : string) : option N :=
  match p, split_dot s with
  | O, (ip, None) => if String.eqb ip "" then None else parse_digits ip 0
  | S _, (ip, Some fp) =>
      if String.eqb ip "" then None
      else if Nat.eqb (String.length fp) p then parse_digits (ip ++ fp) 0
      else None
  | _, _ => None
  end.

(** Read back a string of [format_fixed p]: the sign and the scaled
    integer. *)
Definition parse_fixed (p : nat) (s : string) : option (bool * N) :=
  match s with
  | String c s' =>
      if Ascii.eqb c "-" then option_map (pair true) (parse_fixed_digits p s')
      else option_map (pair false) (parse_fixed_digits p s)
  | EmptyString => None
  end.

(** ** Digits *)

Lemma char_digit_digit_char (d : N) : (d < 10)%N -> char_digit (digit_char d) = Some d.
Proof.
  intros Hd. unfold char_digit, digit_char.
  rewrite N_ascii_embedding by lia.
  replace ((48 <=? 48 + d)%N && (48 + d <=? 57)%N) with true.
  - f_equal. lia.
  - symmetry. apply andb_true_iff. split; apply N.leb_le; lia.
Qed.

Lemma digit_char_not_dot (d : N) : (d < 10)%N -> Ascii.eqb (digit_char d) "." = false.
Proof.
  intros Hd. apply Ascii.eqb_neq. intros E.
  apply (f_equal char_digit) in E. rewrite char_digit_digit_char in E by exact Hd.
  discriminate E.
Qed.

Lemma parse_digits_app (s1 s2 : string) (acc : N) :
  parse_digits (s1 ++ s2) acc =
  match parse_digits s1 acc with Some a => parse_digits s2 a | None => None end.
Proof.
  revert acc. induction s1 as [|c s1 IH]; intros acc; simpl; [reflexivity|].
  destruct (char_digit c); [apply IH | reflexivity].
Qed.

Lemma mod_10_pow_succ (n : N) (k : nat) :
  (n mod 10 ^ N.of_nat (S k) = (n / 10) mod 10 ^ N.of_nat k * 10 + n mod 10)%N.
Proof.
  rewrite Nat2N.inj_succ, N.pow_succ_r', N.Div0.mod_mul_r. lia.
Qed.

Lemma parse_ndigits (k : nat) (n acc : N) :
  parse_digits (ndigits k n) acc = Some (acc * 10 ^ N.of_nat k + n mod 10 ^ N.of_nat k)%N.
Proof.
  revert n acc. induction k as [|k IH]; intros n acc; simpl ndigits.
  - simpl. f_equal. rewrite N.mod_1_r. lia.
  - rewrite parse_digits_app, IH. cbn [parse_digits].
    rewrite char_digit_digit_char by (apply N.mod_lt; lia).
    f_equal. rewrite (mod_10_pow_succ n k), Nat2N.inj_succ, N.pow_succ_r'. lia.
Qed.

Lemma ndigits_length (k : nat) (n : N) : String.length (ndigits k n) = k.
Proof.
  revert n. induction k as [|k IH]; intros n; simpl; [reflexivity|].
  rewrite string_length_app, IH. simpl. lia.
Qed.

Lemma split_dot_ndigits (k : nat) (n : N) (s : string) :
  split_dot (ndigits k n ++ s) = (ndigits k n ++ fst (split_dot s), snd (split_dot s)).
Proof.
  unfold split_dot. revert n s. induction k as [|k IH]; intros n s; simpl.
  - destruct (split_at "." s); reflexivity.
  - rewrite <- string_app_assoc, IH. simpl.
    rewrite digit_char_not_dot by (apply N.mod_lt; lia).
    destruct (split_at "." s) as [a b]. simpl. now rewrite <- string_app_assoc.
Qed.

(** The fuel of [dlen] is enough: [n] has at most [dlen n] digits. *)
Lemma dlen_fuel_enough (fuel : nat) (n : N) :
  (n < 2 ^ N.of_nat fuel)%N -> (n < 10 ^ N.of_nat (dlen_fuel fuel n))%N.
Proof.
  revert n. induction fuel as [|f IH]; intros n Hn; simpl dlen_fuel.
  - simpl in *. lia.
  - destruct (N.ltb_spec n 10) as [Hlt|Hge]; [simpl; lia|].
    assert (Hd : (n / 10 < 2 ^ N.of_nat f)%N).
    { rewrite Nat2N.inj_succ, N.pow_succ_r' in Hn.
      apply N.Div0.div_lt_upper_bound. lia. }
    specialize (IH _ Hd).
    rewrite Nat2N.inj_succ, N.pow_succ_r'.
    pose proof (N.div_mod n 10 ltac:(lia)). pose proof (N.mod_lt n 10 ltac:(lia)). lia.
Qed.

Lemma pos_lt_pow_size (p : positive) : (Npos p < 2 ^ N.of_nat (Pos.size_nat p))%N.
Proof.
  induction p as [p IH|p IH|]; simpl Pos.size_nat; [| |simpl; lia];
    rewrite Nat2N.inj_succ, N.pow_succ_r'; lia.
Qed.

Lemma dlen_enough (n : N) : (n < 10 ^ N.of_nat (dlen n))%N.
Proof.
  apply dlen_fuel_enough. destruct n as [|p]; [simpl; lia|].
  apply pos_lt_pow_size.
Qed.

Lemma show_N_parse (n acc : N) :
  parse_digits (show_N n) acc = Some (acc * 10 ^ N.of_nat (dlen n) + n)%N.
Proof.
  unfold show_N. rewrite parse_ndigits, N.mod_small by apply dlen_enough. reflexivity.
Qed.

Lemma dlen_pos (n : N) : (1 <= dlen n)%nat.
Proof.
  unfold dlen. generalize (N.size_nat n). intros f. revert n.
  induction f as [|f IH]; intros n; simpl; [lia|].
  destruct (n <? 10)%N; [lia|]. specialize (IH (n / 10)%N). lia.
Qed.

(** A nonempty digit string starts with a digit. *)
Lemma ndigits_head (k : nat) (n : N) :
  (1 <= k)%nat -> exists d s, (d < 10)%N /\ ndigits k n = String (digit_char d) s.
Proof.
  revert n. induction k as [|k IH]; intros n Hk; [lia|].
  destruct k as [|k].
  - exists (n mod 10)%N, "". split; [apply N.mod_lt; lia | reflexivity].
  - destruct (IH (n / 10)%N ltac:(lia)) as (d & s & Hd & E).
    exists d, (s ++ String (digit_char (n mod 10)) ""). split; [exact Hd|].
    change (ndigits (S (S k)) n) with (ndigits (S k) (n / 10) ++ String (digit_char (n mod 10)) "").
    rewrite E. reflexivity.
Qed.

Lemma show_N_head (n : N) : exists d s, (d < 10)%N /\ show_N n = String (digit_char d) s.
Proof. apply ndigits_head, dlen_pos. Qed.

Lemma digit_char_not_minus (d : N) : (d < 10)%N -> Ascii.eqb (digit_char d) "-" = false.
Proof.
  intros Hd. apply Ascii.eqb_neq. intros E.
  apply (f_equal char_digit) in E. rewrite char_digit_digit_char in E by exact Hd.
  discriminate E.
Qed.

Lemma show_N_nonempty (n : N) : String.eqb (show_N n) "" = false.
Proof. destruct (show_N_head n) as (d & s & _ & ->). reflexivity. Qed.

Lemma split_dot_point (s : string) : split_dot ("." ++ s) = ("", Some s).
Proof. apply split_at_sep. Qed.

Lemma parse_fixed_digits_fixed_digits (p : nat) (r : N) :
  parse_fixed_digits p (fixed_digits p r) = Some r.
Proof.
  destruct p as [|p'].
  - unfold parse_fixed_digits, fixed_digits.
    pose proof (split_dot_ndigits (dlen r) r "") as E.
    rewrite string_app_nil_r in E. fold (show_N r) in E. rewrite E. simpl.
    rewrite string_app_nil_r, show_N_nonempty, show_N_parse. reflexivity.
  - set (T := (10 ^ N.of_nat (S p'))%N).
    unfold parse_fixed_digits, fixed_digits. fold T.
    unfold show_N at 1. rewrite split_dot_ndigits, split_dot_point. cbn [fst snd].
    rewrite string_app_nil_r. fold (show_N (r / T)).
    rewrite show_N_nonempty, ndigits_length, Nat.eqb_refl.
    rewrite parse_digits_app, show_N_parse, parse_ndigits.
    rewrite (N.mod_small (r mod T)) by (apply N.mod_lt; unfold T; apply N.pow_nonzero; lia).
    f_equal. pose proof (N.div_mod r T ltac:(unfold T; apply N.pow_nonzero; lia)). lia.
Qed.

(** ** The rounding *)

Section RoundHalfEven.
Context (n : Z) (d : positive).

Let q := (n / Z.pos d)%Z.
Let r := (n mod Z.pos d)%Z.

Lemma round_half_even_cases :
  (n = q * Z.pos d + r /\ 0 <= r < Z.pos d)%Z /\
  ((2 * r < Z.pos d /\ round_half_even n d = q) \/
   (2 * r > Z.pos d /\ round_half_even n d = q + 1) \/
   (2 * r = Z.pos d /\ (round_half_even n d = q \/ round_half_even n d = q + 1)))%Z.
Proof.
  split.
  - pose proof (Z.div_mod n (Z.pos d) ltac:(lia)).
    pose proof (Z.mod_pos_bound n (Z.pos d) ltac:(lia)). unfold q, r. lia.
  - unfold round_half_even. fold q r.
    destruct (Z.compare_spec (2 * r) (Z.pos d)); [|left|right; left]; try lia.
    right; right. destruct (Z.even q); lia.
Qed.
End RoundHalfEven.

Lemma round_half_even_dist (n : Z) (d : positive) :
  (2 * Z.abs (round_half_even n d * Z.pos d - n) <= Z.pos d)%Z.
Proof.
  destruct (round_half_even_cases n d) as [[En Hr] H].
  destruct H as [[H ->]|[[H ->]|[H [-> | ->]]]]; nia.
Qed.

(** ** Properties of the rendering *)

(** Parsing the rendering gives back the sign and the scaled, rounded
    magnitude. *)
Theorem format_fixed_roundtrip (p : nat) (neg : bool) (x : Q) :
  parse_fixed p (format_fixed p neg x) = Some (neg, Z.to_N (scaled_round p x)).
Proof.
  unfold format_fixed. set (r := Z.to_N (scaled_round p x)).
  destruct neg; simpl sign_prefix.
  - cbn [String.append parse_fixed Ascii.eqb]. simpl.
    rewrite parse_fixed_digits_fixed_digits. reflexivity.
  - cbn [String.append].
    assert (Hd : exists d s, (d < 10)%N /\ fixed_digits p r = String (digit_char d) s).
    { destruct p as [|p']; unfold fixed_digits; [apply show_N_head|].
      destruct (show_N_head (r / 10 ^ N.of_nat (S p'))) as (d & s & Hd & ->).
      eexists d, _. split; [exact Hd | reflexivity]. }
    destruct Hd as (d & s & Hd & E).
    unfold parse_fixed. rewrite E, digit_char_not_minus by exact Hd. rewrite <- E.
    rewrite parse_fixed_digits_fixed_digits. reflexivity.
Qed.

(** A nonnegative magnitude is scaled to a nonnegative integer. *)
Lemma scaled_round_nonneg (p : nat) (x : Q) : 0 <= x -> (0 <= scaled_round p x)%Z.
Proof.
  intros Hx. unfold scaled_round.
  assert (Hn : (0 <= Qnum x * 10 ^ Z.of_nat p)%Z).
  { unfold Qle in Hx. cbn in Hx. apply Z.mul_nonneg_nonneg; [lia | apply Z.pow_nonneg; lia]. }
  destruct (round_half_even_cases (Qnum x * 10 ^ Z.of_nat p) (Qden x)) as [_ H].
  pose proof (Z.div_pos (Qnum x * 10 ^ Z.of_nat p) (Z.pos (Qden x)) Hn ltac:(lia)).
  destruct H as [[_ ->]|[[_ ->]|[_ [-> | ->]]]]; lia.
Qed.

(** The value a rendering denotes: the scaled integer over [10^p]. *)
Definition scaled_value (p : nat) (x : Q) : Q :=
  inject_Z (scaled_round p x) / inject_Z (10 ^ Z.of_nat p).

Lemma Qdiv_le_mono_pos (a b c : Q) : 0 < c -> a <= b -> a / c <= b / c.
Proof.
  intros Hc Hab. unfold Qdiv. apply Qmult_le_compat_r; [exact Hab|].
  apply Qlt_le_weak, Qinv_lt_0_compat, Hc.
Qed.

(** The rendered value is within half a unit of the last digit of the exact
    magnitude. *)
Theorem format_fixed_error (p : nat) (x : Q) :
  Qabs (scaled_value p x - x) <= 1 / (2 * inject_Z (10 ^ Z.of_nat p)).
Proof.
  destruct x as [n d]. unfold scaled_value, scaled_round. cbn [Qnum Qden].
  set (T := (10 ^ Z.of_nat p)%Z).
  assert (HT : (0 < T)%Z) by (apply Z.pow_pos_nonneg; lia).
  pose proof (round_half_even_dist (n * T) d) as Hd.
  set (R := round_half_even (n * T) d) in *.
  set (A := (R * Z.pos d - n * T)%Z) in *.
  assert (HQT : 0 < inject_Z T) by (change 0 with (inject_Z 0); rewrite <- Zlt_Qlt; exact HT).
  assert (HQd : 0 < inject_Z (Z.pos d)) by (change 0 with (inject_Z 0); rewrite <- Zlt_Qlt; lia).
  assert (Ediff : inject_Z R / inject_Z T - (n # d) == inject_Z A / (inject_Z T * inject_Z (Z.pos d))).
  { rewrite Qmake_Qdiv. unfold A. rewrite inject_Z_sub, !inject_Z_mult.
    field. split; apply Qnot_eq_sym, Qlt_not_eq; assumption. }
  assert (EB : 1 / (2 * inject_Z T) == (inject_Z (Z.pos d) * (1 # 2)) / (inject_Z T * inject_Z (Z.pos d))).
  { field. split; apply Qnot_eq_sym, Qlt_not_eq; assumption. }
  assert (HA : - (inject_Z (Z.pos d) * (1 # 2)) <= inject_Z A <= inject_Z (Z.pos d) * (1 # 2)).
  { assert (H1 : (- Z.pos d <= 2 * A <= Z.pos d)%Z) by lia.
    destruct H1 as [H1 H2]. rewrite Zle_Qle in H1, H2.
    assert (E2 : inject_Z (2 * A) == 2 * inject_Z A) by (rewrite inject_Z_mult; reflexivity).
    rewrite inject_Z_opp, E2 in H1. rewrite E2 in H2. lra. }
  rewrite Ediff, EB. apply Qabs_Qle_condition.
  assert (HTd : 0 < inject_Z T * inject_Z (Z.pos d)) by (apply Qmult_lt_0_compat; assumption).
  split.
  - setoid_replace (- ((inject_Z (Z.pos d) * (1 # 2)) / (inject_Z T * inject_Z (Z.pos d))))
      with ((- (inject_Z (Z.pos d) * (1 # 2))) / (inject_Z T * inject_Z (Z.pos d)))
      by (field; split; apply Qnot_eq_sym, Qlt_not_eq; assumption).
    apply Qdiv_le_mono_pos; [exact HTd | apply HA].
  - apply Qdiv_le_mono_pos; [exact HTd | apply HA].
Qed.

(** ** Witnesses *)

(** The renderings of the sample program's values. *)
Example format_fixed_samples :
  format_fixed 3 false (69975 # 100) = "699.750" /\
  format_fixed 3 false (9936 # 10000) = "0.994" /\
  format_fixed 3 true (1 # 10000) = "-0.000" /\
  format_fixed 2 false (125 # 10000) = "0.01" /\
  format_fixed 0 false (5 # 2) = "2".
Proof. vm_compute. repeat split. Qed.
