(* ===== verification/PyArith.v ===== *)
(** * The Python arithmetic the program uses, as an interface

    Every formula of [src/homework.py] is built from integer and float
    literals (the class constants, lines 30-32, 73-74, 93-95, 125-127), the
    binary operators [+ - * / // **] and, in [InfoMessage.get_message],
    [format(value, spec)].  The class [PyArith] collects these operations;
    each operation returns a [result], since Python raises on division by
    zero and on conversions out of range.  The methods of [Training] are
    written once against this interface (file [Training]), so that the
    theorems about which exceptions escape ([Errors]) are proved against
    the interface and a law it obeys; the instance of CPython's [int] and
    [float] (file [Binary64]) is the arithmetic the program runs on. *)

From Stdlib Require Import ZArith NArith QArith Qround Qabs String Lia Lqa.
From S2P Require Import Prelude FixedPoint.
Local Open Scope string_scope.

(** A format specification, as [format(value, spec)] receives it after
    parsing: the empty one ([str(value)]) or a precision with the
    presentation type ['f']. *)
Inductive fmt_spec : Type :=
| FSDefault
| FSFixed (prec : nat).

Class PyArith (V : Type) : Type := {
  py_int : Z -> V;                          (** an [int] literal *)
  py_float : Q -> V;                        (** a [float] literal: the decimal as written *)
  py_add : V -> V -> result V;              (** [x + y] *)
  py_sub : V -> V -> result V;              (** [x - y] *)
  py_mul : V -> V -> result V;              (** [x * y] *)
  py_truediv : V -> V -> result V;          (** [x / y] *)
  py_floordiv : V -> V -> result V;         (** [x // y] *)
  py_pow : V -> Z -> result V;              (** [x ** n] with an [int] exponent *)
  py_format : V -> fmt_spec -> result string; (** [format(x, spec)] *)
  py_type_name : V -> string                 (** [type(x).__name__] *)
}.

(** ** Decimal strings of integers *)

(** [str(z)] of a Python [int]. *)
Definition show_Z (z : Z) : string :=
  (if (z <? 0)%Z then "-" else "") ++ show_N (Z.abs_N z).

