(* ===== verification/Binary64.v ===== *)
(** * CPython's [int] and [float], as an instance of [PyArith]

    A Python number is an [int] (an unbounded integer, [PInt]) or a [float]
    (an IEEE-754 binary64 number, [PFloat], the kernel's primitive floats
    whose operations round to nearest, ties to even).  The instance follows
    CPython's [Objects/longobject.c] and [Objects/floatobject.c]:
    - [+ - *] of two ints is exact; otherwise both operands are converted to
      float (an int too large for a float raises [OverflowError]) and the
      IEEE operation is applied (infinities and NaNs propagate, nothing
      raises);
    - [/] of two ints is the correctly rounded quotient ([long_true_divide]);
      otherwise the operands are converted and the divisor tested for zero;
      a zero divisor raises [ZeroDivisionError];
    - [//] of two ints is the floor quotient; on floats it is
      [_float_div_mod]'s computation, transcribed operation by operation;
    - [**] with an int exponent: exact on an int base with a nonnegative
      exponent; on a float base, [float_pow]'s special cases, then the
      correctly rounded power (the libm [pow] call; see [pow_float]), an
      infinite result of a finite base raising [OverflowError];
    - [format(x, '.<p>f')] renders the exact value of the float (an int is
      converted first), ['inf'], ['-inf'] and ['nan'] for the special
      values; [format(x, '')] is [str(x)].
    A float literal of the source is the binary64 number nearest to the
    decimal written ([float_of_Q]), as CPython's parser reads it. *)

From Stdlib Require Import ZArith QArith Qround Qabs String List Lia Floats.
From S2P Require Import Prelude FixedPoint PyArith.
Import ListNotations.
Local Open Scope string_scope.

Inductive pynum : Type :=
| PInt (z : Z)
| PFloat (f : float).

(** ** Rationals and binary64 numbers *)

(** The binary64 number nearest to [q], ties to even: the rounding of the
    exact quotient [Qnum q / Qden q] ([SFdiv] on the exact operands). *)
Definition sf_of_Q (q : Q) : spec_float :=
  match Qnum q with
  | Z0 => S754_zero false
  | Zpos n => SFdiv prec emax (S754_finite false n 0) (S754_finite false (Qden q) 0)
  | Zneg n => SFdiv prec emax (S754_finite true n 0) (S754_finite false (Qden q) 0)
  end.

Definition float_of_Q (q : Q) : float := SF2Prim (sf_of_Q q).

(** The exact value of a finite float. *)
Definition Q_of_sf (x : spec_float) : option Q :=
  match x with
  | S754_zero _ => Some 0
  | S754_finite s m e =>
      let mz := if s then Zneg m else Zpos m in
      match e with
      | Z0 => Some (inject_Z mz)
      | Zpos _ => Some (inject_Z (mz * 2 ^ e))
      | Zneg p => Some (mz # (2 ^ p)%positive)
      end
  | _ => None
  end.

Definition Q_of_float (f : float) : option Q := Q_of_sf (Prim2SF f).

Definition float_is_nan (f : float) : bool := PrimFloat.is_nan f.
Definition float_is_inf (f : float) : bool := PrimFloat.is_infinity f.
Definition float_is_zero (f : float) : bool := PrimFloat.is_zero f.
Definition float_sign (f : float) : bool := PrimFloat.get_sign f.

Definition float_neg_zero : float := (-0)%float.

(** [copysign(0.0, s)]. *)
Definition copysign_zero (s : float) : float :=
  if float_sign s then float_neg_zero else 0%float.

(** ** The libm functions CPython calls, on their exact values *)

(** [fmod(x, y)]: [x - trunc(x / y) * y], exact, with the sign of [x];
    as glibc's [__ieee754_fmod], [x] itself when [|x| < |y|]. *)
Definition float_fmod (x y : float) : float :=
  if float_is_nan x || float_is_nan y || float_is_inf x || float_is_zero y then nan
  else if float_is_inf y || float_is_zero x then x
  else if (PrimFloat.abs x <? PrimFloat.abs y)%float then x
  else
    match Q_of_float x, Q_of_float y with
    | Some qx, Some qy =>
        let q := qx / qy in
        let r := qx - inject_Z (Z.quot (Qnum q) (Z.pos (Qden q))) * qy in
        if Qeq_bool r 0 then copysign_zero x else float_of_Q r
    | _, _ => nan
    end.

(** [floor(x)]: exact; NaNs, infinities and zeros are returned as they
    are. *)
Definition float_floor (x : float) : float :=
  if float_is_nan x || float_is_inf x || float_is_zero x then x
  else
    match Q_of_float x with
    | Some q => float_of_Q (inject_Z (Qfloor q))
    | None => x
    end.

(** ** Conversions *)

(** [float(z)] of an int ([PyLong_AsDouble]): correctly rounded, and
    [OverflowError] when the result is out of the float range. *)
Definition float_of_int (z : Z) : result float :=
  let f := float_of_Q (inject_Z z) in
  if float_is_inf f then Err OverflowError else Ok f.

Definition to_float (x : pynum) : result float :=
  match x with
  | PInt z => float_of_int z
  | PFloat f => Ok f
  end.

(** ** The operators *)

(** [+], [-], [*]: exact on two ints; otherwise both operands converted,
    the left one first, and the IEEE operation. *)
Definition arith (zop : Z -> Z -> Z) (fop : float -> float -> float) (x y : pynum) : result pynum :=
  match x, y with
  | PInt a, PInt b => Ok (PInt (zop a b))
  | _, _ =>
      let* a := to_float x in
      let* b := to_float y in
      Ok (PFloat (fop a b))
  end.

(** [a / b] on two ints ([long_true_divide]): the correctly rounded
    quotient; a zero dividend gives a zero of the sign of the quotient. *)
Definition int_truediv (a b : Z) : result pynum :=
  if (b =? 0)%Z then Err ZeroDivisionError
  else if (a =? 0)%Z then Ok (PFloat (if (b <? 0)%Z then float_neg_zero else 0%float))
  else
    let f := float_of_Q (inject_Z a / inject_Z b) in
    if float_is_inf f then Err OverflowError else Ok (PFloat f).

(** [x / y] ([float_div]). *)
Definition truediv (x y : pynum) : result pynum :=
  match x, y with
  | PInt a, PInt b => int_truediv a b
  | _, _ =>
      let* a := to_float x in
      let* b := to_float y in
      if float_is_zero b then Err ZeroDivisionError else Ok (PFloat (a / b)%float)
  end.

(** [_float_div_mod(vx, wx)] (floatobject.c), operation by operation:
    the floor quotient and the remainder. *)
Definition float_div_mod (vx wx : float) : float * float :=
  let mod0 := float_fmod vx wx in
  let div0 := ((vx - mod0) / wx)%float in
  let '(mod1, div1) :=
    if negb (float_is_zero mod0) then
      if Bool.eqb (wx <? 0)%float (mod0 <? 0)%float then (mod0, div0)
      else ((mod0 + wx)%float, (div0 - 1)%float)
    else (copysign_zero wx, div0) in
  let floordiv :=
    if negb (float_is_zero div1) then
      let fd := float_floor div1 in
      if (0.5 <? div1 - fd)%float then (fd + 1)%float else fd
    else copysign_zero (vx / wx)%float in
  (floordiv, mod1).

(** [x // y] ([long_div] on ints, [float_floor_div] otherwise). *)
Definition floordiv (x y : pynum) : result pynum :=
  match x, y with
  | PInt a, PInt b => if (b =? 0)%Z then Err ZeroDivisionError else Ok (PInt (a / b)%Z)
  | _, _ =>
      let* a := to_float x in
      let* b := to_float y in
      if float_is_zero b then Err ZeroDivisionError else Ok (PFloat (fst (float_div_mod a b)))
  end.

(** [DOUBLE_IS_ODD_INTEGER(float(n))] of an int exponent: the float of an
    integer of magnitude above [2^53] is even. *)
Definition exponent_is_odd (n : Z) : bool := Z.odd n && (Z.abs n <=? 2 ^ 53)%Z.

(** [iv ** iw] with an integral exponent ([float_pow] after the exponent's
    conversion): the special cases in CPython's order, then the libm
    [pow] of the magnitude, modelled as the correctly rounded exact power,
    its sign restored; an infinite result raises [OverflowError]. *)
Definition pow_float (iv : float) (n : Z) : result float :=
  let* iw := float_of_int n in
  let k := match Q_of_float iw with Some q => Qfloor q | None => n end in
  let odd := exponent_is_odd n in
  if float_is_zero iw then Ok 1%float
  else if float_is_nan iv then Ok iv
  else if float_is_inf iv then
    if (0 <? iw)%float then Ok (if odd then iv else PrimFloat.abs iv)
    else Ok (if odd then copysign_zero iv else 0%float)
  else if float_is_zero iv then
    if (iw <? 0)%float then Err ZeroDivisionError else Ok (if odd then iv else 0%float)
  else
    let negate := (iv <? 0)%float && odd in
    let av := PrimFloat.abs iv in
    if (av =? 1)%float then Ok (if negate then (-1)%float else 1%float)
    else
      match Q_of_float av with
      | Some q =>
          let r := float_of_Q (q ^ k) in
          if float_is_inf r then Err OverflowError
          else Ok (if negate then (- r)%float else r)
      | None => Ok nan
      end.

(** [x ** n] for an int [n]: exact on an int base and [n >= 0]; a negative
    exponent sends an int base to [float_pow] ([long_pow]). *)
Definition pow (x : pynum) (n : Z) : result pynum :=
  match x with
  | PInt a =>
      if (0 <=? n)%Z then Ok (PInt (a ^ n))
      else let* f := float_of_int a in let* r := pow_float f n in Ok (PFloat r)
  | PFloat f => let* r := pow_float f n in Ok (PFloat r)
  end.

(** ** [str(x)] of a float: the shortest repr *)

(** [10^e] as a rational. *)
Definition pow10 (e : Z) : Q :=
  match e with
  | Z0 => 1
  | Zpos p => inject_Z (10 ^ Z.pos p)
  | Zneg p => 1 # (10 ^ p)%positive
  end.

(** The decimal exponent [e] of a positive [q]: [10^(e-1) <= q < 10^e]. *)
Definition dec_exponent (q : Q) : Z :=
  let e0 := (Z.of_nat (dlen (Z.to_N (Qnum q))) - Z.of_nat (dlen (Npos (Qden q))))%Z in
  if Qle_bool (pow10 e0) q then (e0 + 1)%Z else e0.

(** Of the two [k]-digit decimals around [q] (scaled by [10^s]), the ones
    that read back as [av]; the nearer one, ties to even, when both do. *)
Definition pick_digits (q : Q) (s : Z) (av : float) : option Z :=
  let lo := Qfloor (q * pow10 s) in
  let reads_back (c : Z) := PrimFloat.Leibniz.eqb (float_of_Q (inject_Z c * pow10 (- s))) av in
  match reads_back lo, reads_back (lo + 1)%Z with
  | true, true =>
      match Qcompare (q * pow10 s - inject_Z lo) (inject_Z (lo + 1) - q * pow10 s) with
      | Lt => Some lo
      | Gt => Some (lo + 1)%Z
      | Eq => Some (if Z.even lo then lo else lo + 1)%Z
      end
  | true, false => Some lo
  | false, true => Some (lo + 1)%Z
  | false, false => None
  end.

(** The shortest digits that read back, trying [k = 1, 2, ...] significant
    digits; 17 always suffice for a binary64 number, the fuel. *)
Fixpoint shortest_digits (fuel : nat) (k : Z) (q : Q) (e : Z) (av : float) : Z * Z :=
  match fuel with
  | O => (Qfloor (q * pow10 (k - e)), (k - e)%Z)
  | S f =>
      match pick_digits q (k - e) av with
      | Some c => (c, (k - e)%Z)
      | None => shortest_digits f (k + 1) q e av
      end
  end.

(** Drop trailing zeros: [c * 10^-s] unchanged. *)
Fixpoint strip_zeros (fuel : nat) (c s : Z) : Z * Z :=
  match fuel with
  | O => (c, s)
  | S f => if (c mod 10 =? 0)%Z && negb (c =? 0)%Z then strip_zeros f (c / 10) (s - 1) else (c, s)
  end.

Fixpoint zeros (n : nat) : string :=
  match n with O => "" | S n' => "0" ++ zeros n' end.

(** [format_float_short(x, 'r', 0, Py_DTSF_ADD_DOT_0)] of digits [ds] with
    the decimal point at [decpt]. *)
Definition repr_layout (ds : string) (decpt : Z) : string :=
  let n := Z.of_nat (String.length ds) in
  if (decpt <=? -4)%Z || (16 <? decpt)%Z then
    let x := (decpt - 1)%Z in
    String.substring 0 1 ds ++
    (if (1 <? n)%Z then "." ++ String.substring 1 (String.length ds - 1) ds else "") ++
    "e" ++ (if (x <? 0)%Z then "-" else "+") ++
    (if (Z.abs x <? 10)%Z then "0" else "") ++ show_N (Z.abs_N x)
  else if (decpt <=? 0)%Z then "0." ++ zeros (Z.to_nat (- decpt)) ++ ds
  else if (decpt <? n)%Z then
    String.substring 0 (Z.to_nat decpt) ds ++ "." ++
    String.substring (Z.to_nat decpt) (String.length ds - Z.to_nat decpt) ds
  else ds ++ zeros (Z.to_nat (decpt - n)) ++ ".0".

(** [repr(x)], which is [str(x)]. *)
Definition float_repr (x : float) : string :=
  if float_is_nan x then "nan"
  else if float_is_inf x then (if float_sign x then "-inf" else "inf")
  else if float_is_zero x then (if float_sign x then "-0.0" else "0.0")
  else
    let av := PrimFloat.abs x in
    match Q_of_float av with
    | Some q =>
        let e := dec_exponent q in
        let '(c, s) := shortest_digits 17 1 q e av in
        let '(c', s') := strip_zeros 17 c s in
        let ds := show_N (Z.to_N c') in
        (if float_sign x then "-" else "") ++
        repr_layout ds (Z.of_nat (String.length ds) - s')
    | None => "nan"
    end.

(** ** Formatting *)

(** [format(x, spec)] of a float. *)
Definition format_float (x : float) (spec : fmt_spec) : string :=
  match spec with
  | FSDefault => float_repr x
  | FSFixed p =>
      if float_is_nan x then "nan"
      else if float_is_inf x then (if float_sign x then "-inf" else "inf")
      else
        match Q_of_float x with
        | Some q => format_fixed p (float_sign x) (Qabs q)
        | None => "nan"
        end
  end.

(** [format(x, spec)] of a Python number: an int under ['f'] is converted
    to a float first ([OverflowError] when out of range). *)
Definition format (x : pynum) (spec : fmt_spec) : result string :=
  match x, spec with
  | PInt z, FSDefault => Ok (show_Z z)
  | PInt z, FSFixed _ => let* f := float_of_int z in Ok (format_float f spec)
  | PFloat f, _ => Ok (format_float f spec)
  end.

Definition type_name (x : pynum) : string :=
  match x with PInt _ => "int" | PFloat _ => "float" end.

Module CPython.
#[export] Instance PyArith_pynum : PyArith pynum := {
  py_int := PInt;
  py_float := fun q => PFloat (float_of_Q q);
  py_add := arith Z.add PrimFloat.add;
  py_sub := arith Z.sub PrimFloat.sub;
  py_mul := arith Z.mul PrimFloat.mul;
  py_truediv := truediv;
  py_floordiv := floordiv;
  py_pow := pow;
  py_format := format;
  py_type_name := type_name
}.
End CPython.

(** ** Samples, as CPython evaluates them *)

Section Samples.
Import CPython.

Let show_result (r : result pynum) : string :=
  match r with
  | Ok (PFloat f) => float_repr f
  | Ok (PInt z) => show_Z z
  | Err ZeroDivisionError => "ZeroDivisionError"
  | Err OverflowError => "OverflowError"
  | Err _ => "error"
  end.

(** [1 // 0.1], [-1 // 0.1], [7.5 // 2], [-7.5 // 2], [-0.0 // 5],
    [-1 // inf], [inf // 1], [5 // -0.0]. *)
Example floordiv_samples :
  map show_result
    [floordiv (PInt 1) (PFloat (float_of_Q (1 # 10))); floordiv (PInt (-1)) (PFloat (float_of_Q (1 # 10)));
     floordiv (PFloat 7.5) (PInt 2); floordiv (PFloat (-7.5)) (PInt 2);
     floordiv (PFloat (-0)) (PInt 5); floordiv (PInt (-1)) (PFloat infinity);
     floordiv (PFloat infinity) (PInt 1); floordiv (PInt 5) (PFloat (-0))] =
  ["9.0"; "-10.0"; "3.0"; "-4.0"; "-0.0"; "-1.0"; "nan"; "ZeroDivisionError"].
Proof. vm_compute. reflexivity. Qed.

(** [0 / -5], [1 / 3], [5.85 ** 2], [0.1 ** 2], [2.0 ** 1100], [3 ** -1],
    [0.0 ** -2]. *)
Example truediv_pow_samples :
  map show_result
    [truediv (PInt 0) (PInt (-5)); truediv (PInt 1) (PInt 3);
     pow (PFloat (float_of_Q (585 # 100))) 2; pow (PFloat (float_of_Q (1 # 10))) 2;
     pow (PFloat 2) 1100; pow (PInt 3) (-1); pow (PFloat 0) (-2)] =
  ["-0.0"; "0.3333333333333333"; "34.2225"; "0.010000000000000002"; "OverflowError";
   "0.3333333333333333"; "ZeroDivisionError"].
Proof. vm_compute. reflexivity. Qed.

(** [repr] of [0.1 + 0.2], [1e16], [1e-05], [2 ** -30], [2 ** 53 + 1],
    the least subnormal. *)
Example repr_samples :
  map float_repr
    [(float_of_Q (2 # 10) + float_of_Q (1 # 10))%float; float_of_Q (inject_Z (10 ^ 16));
     float_of_Q (1 # 100000); float_of_Q (1 # 2 ^ 30); float_of_Q (inject_Z (2 ^ 53 + 1));
     float_of_Q (1 # 2 ^ 1074)] =
  ["0.30000000000000004"; "1e+16"; "1e-05"; "9.313225746154785e-10"; "9007199254740992.0"; "5e-324"].
Proof. vm_compute. reflexivity. Qed.
End Samples.
