(* ===== verification/IEEE.v ===== *)
(** * Signs and zeros of binary64 operations

    The kernel's primitive floats are specified by [FloatAxioms]: each
    operation is the [SpecFloat] operation on the images [Prim2SF] of its
    operands, and [Prim2SF] is injective.  This file reads the predicates
    [Binary64] uses ([float_is_zero], [float_is_nan], [float_is_inf],
    [float_sign]) off [Prim2SF], proves the signed-zero facts of IEEE-754
    arithmetic the program's floor division relies on ([x - x] is [+0.0],
    [+0.0 / y] is [+0.0] for a positive [y], a quotient of nonnegative
    numbers is never negative), and derives the behaviour of CPython's
    [_float_div_mod] on a dividend below the divisor: the floor quotient
    is a zero of the dividend's sign. *)

From Stdlib Require Import ZArith QArith Qround Bool Floats Lia Lqa.
From S2P Require Import Prelude FixedPoint PyArith Binary64.

(** The sign bit of a [spec_float]; a NaN reads as positive, as
    [PrimFloat.get_sign] reads it. *)
Definition sf_sign (x : spec_float) : bool :=
  match x with
  | S754_zero s | S754_infinity s | S754_finite s _ _ => s
  | S754_nan => false
  end.

(** ** The predicates of [Binary64] on [Prim2SF] *)

Lemma Prim2SF_zero : Prim2SF 0%float = S754_zero false.
Proof. reflexivity. Qed.

Lemma Prim2SF_neg_zero : Prim2SF float_neg_zero = S754_zero true.
Proof. reflexivity. Qed.

Lemma SFcompare_refl (x : spec_float) :
  x <> S754_nan -> SFcompare x x = Some Eq.
Proof.
  destruct x as [s|s| |s m e]; intros Hx; [destruct s; reflexivity..|congruence|].
  simpl. rewrite Z.compare_refl, Pos.compare_cont_refl. destruct s; reflexivity.
Qed.

Lemma float_is_nan_sf (x : float) :
  float_is_nan x = match Prim2SF x with S754_nan => true | _ => false end.
Proof.
  unfold float_is_nan, PrimFloat.is_nan. rewrite eqb_spec. unfold SFeqb.
  destruct (Prim2SF x) eqn:E; [rewrite SFcompare_refl by discriminate; reflexivity..|reflexivity|].
  rewrite SFcompare_refl by discriminate; reflexivity.
Qed.

Lemma float_is_zero_sf (x : float) :
  float_is_zero x = match Prim2SF x with S754_zero _ => true | _ => false end.
Proof.
  unfold float_is_zero, PrimFloat.is_zero. rewrite eqb_spec.
  change (Prim2SF zero) with (S754_zero false).
  destruct (Prim2SF x) as [s|s| |s m e]; unfold SFeqb; simpl; try destruct s; reflexivity.
Qed.

Lemma float_is_inf_sf (x : float) :
  float_is_inf x = match Prim2SF x with S754_infinity _ => true | _ => false end.
Proof.
  unfold float_is_inf, PrimFloat.is_infinity. rewrite eqb_spec, abs_spec.
  change (Prim2SF infinity) with (S754_infinity false).
  destruct (Prim2SF x) as [s|s| |s m e]; unfold SFeqb; simpl; try destruct s; reflexivity.
Qed.

Lemma float_sign_sf (x : float) : float_sign x = sf_sign (Prim2SF x).
Proof.
  unfold float_sign, PrimFloat.get_sign. pose proof (float_is_zero_sf x) as Hz.
  unfold float_is_zero in Hz. rewrite Hz.
  destruct (Prim2SF x) as [s|s| |s m e] eqn:E.
  - rewrite ltb_spec, div_spec, E. change (Prim2SF one) with (S754_finite false 4503599627370496 (-52)).
    change (Prim2SF zero) with (S754_zero false). destruct s; reflexivity.
  - rewrite ltb_spec, E. change (Prim2SF zero) with (S754_zero false). destruct s; reflexivity.
  - rewrite ltb_spec, E. reflexivity.
  - rewrite ltb_spec, E. change (Prim2SF zero) with (S754_zero false). destruct s; reflexivity.
Qed.

Create Rewrite HintDb ieee_sf.
#[export] Hint Rewrite float_is_nan_sf float_is_zero_sf float_is_inf_sf float_sign_sf : ieee_sf.

(** ** Rounding keeps the sign *)

Lemma binary_round_aux_sign_false (mx ex : Z) (lx : location) :
  sf_sign (binary_round_aux prec emax false mx ex lx) = false.
Proof.
  unfold binary_round_aux.
  destruct (shr_fexp prec emax mx ex lx) as [mrs' e'].
  destruct (shr_fexp prec emax _ e' loc_Exact) as [mrs'' e''].
  destruct (shr_m mrs''); try destruct (Z.leb _ _); reflexivity.
Qed.

(** ** Nonnegative dividends below a positive divisor *)

(** [+0.0], [-0.0] or a positive finite number. *)
Definition sf_nonneg (x : spec_float) : bool :=
  match x with S754_zero _ | S754_finite false _ _ => true | _ => false end.

(** A positive finite number or [+inf]. *)
Definition sf_pos (x : spec_float) : bool :=
  match x with S754_infinity false | S754_finite false _ _ => true | _ => false end.

Lemma small_shapes (x y : float) :
  (0 <=? x)%float = true -> (x <? y)%float = true ->
  sf_nonneg (Prim2SF x) = true /\ sf_pos (Prim2SF y) = true.
Proof.
  rewrite leb_spec, ltb_spec, Prim2SF_zero.
  destruct (Prim2SF x) as [[]|[]| |[] mx ex], (Prim2SF y) as [[]|[]| |[] my ey];
    unfold SFleb, SFltb; simpl; intros H0 H1; try discriminate; split; reflexivity.
Qed.

Lemma sub_self (x : float) : sf_nonneg (Prim2SF x) = true -> (x - x)%float = 0%float.
Proof.
  intros Hx. apply Prim2SF_inj. rewrite sub_spec, Prim2SF_zero. revert Hx.
  destruct (Prim2SF x) as [[]|[]| |[] m e]; intros Hx; try discriminate; try reflexivity.
  unfold SF64sub, SFsub. cbn [cond_Zopp]. rewrite Z.sub_diag. reflexivity.
Qed.

Lemma zero_div_pos (y : float) : sf_pos (Prim2SF y) = true -> (0 / y)%float = 0%float.
Proof.
  intros Hy. apply Prim2SF_inj. rewrite div_spec, Prim2SF_zero. revert Hy.
  destruct (Prim2SF y) as [[]|[]| |[] m e]; intros Hy; try discriminate; reflexivity.
Qed.

(** The quotient of a nonnegative number by a positive one has the sign
    of the dividend. *)
Lemma div_sign_nonneg (x y : float) :
  sf_nonneg (Prim2SF x) = true -> sf_pos (Prim2SF y) = true ->
  float_sign (x / y)%float = float_sign x.
Proof.
  intros Hx Hy. rewrite !float_sign_sf, div_spec. revert Hx Hy. unfold SF64div.
  destruct (Prim2SF x) as [[]|[]| |[] mx ex], (Prim2SF y) as [[]|[]| |[] my ey];
    intros Hx Hy; try discriminate; try reflexivity.
  cbn [SFdiv sf_sign xorb]. destruct (SFdiv_core_binary _ _ _ _) as [[mz ez] lz].
  apply binary_round_aux_sign_false.
Qed.

Lemma ltb_zero_nonneg (x : float) : sf_nonneg (Prim2SF x) = true -> (x <? 0)%float = false.
Proof.
  rewrite ltb_spec, Prim2SF_zero. destruct (Prim2SF x) as [[]|[]| |[] m e]; intros Hx;
    try discriminate; reflexivity.
Qed.

Lemma ltb_zero_pos (y : float) : sf_pos (Prim2SF y) = true -> (y <? 0)%float = false.
Proof.
  rewrite ltb_spec, Prim2SF_zero. destruct (Prim2SF y) as [[]|[]| |[] m e]; intros Hy;
    try discriminate; reflexivity.
Qed.

(** [fmod(x, y)] is [x] for [0 <= x < y]. *)
Lemma float_fmod_small (x y : float) :
  (0 <=? x)%float = true -> (x <? y)%float = true -> float_fmod x y = x.
Proof.
  intros H0 H1. destruct (small_shapes x y H0 H1) as [Hx Hy].
  rewrite ltb_spec in H1. unfold float_fmod.
  rewrite !float_is_nan_sf, !float_is_inf_sf, !float_is_zero_sf, ltb_spec, !abs_spec.
  revert Hx Hy H1.
  destruct (Prim2SF x) as [[]|[]| |[] mx ex], (Prim2SF y) as [[]|[]| |[] my ey];
    intros Hx Hy H1; try discriminate; try reflexivity.
  cbn [SFabs orb]. now rewrite H1.
Qed.

(** [_float_div_mod(x, y)] for [0 <= x < y]: the floor quotient is a zero
    with the sign of [x]. *)
Lemma float_div_mod_small (x y : float) :
  (0 <=? x)%float = true -> (x <? y)%float = true ->
  fst (float_div_mod x y) = copysign_zero x.
Proof.
  intros H0 H1. destruct (small_shapes x y H0 H1) as [Hx Hy].
  unfold float_div_mod. rewrite (float_fmod_small x y H0 H1), (sub_self x Hx), (zero_div_pos y Hy).
  rewrite (ltb_zero_nonneg x Hx), (ltb_zero_pos y Hy).
  destruct (negb (float_is_zero x)); cbn [Bool.eqb fst negb];
    (replace (float_is_zero 0) with true by reflexivity); cbn [negb];
    unfold copysign_zero; now rewrite (div_sign_nonneg x y Hx Hy).
Qed.

(** ** Nonnegative results of the conversions and of [** 2] *)

Lemma binary_round_sign_false (m : positive) (e : Z) :
  sf_sign (binary_round prec emax false m e) = false.
Proof. unfold binary_round. destruct (shl_align _ _ _) as [mz ez]. apply binary_round_aux_sign_false. Qed.

(** A positive [spec_float] read back as a primitive float is positive:
    [SF2Prim] scales an integer mantissa by a power of two. *)
Lemma float_sign_SF2Prim (s : spec_float) : sf_sign s = false -> float_sign (SF2Prim s) = false.
Proof.
  intros Hs. rewrite float_sign_sf.
  destruct s as [[]|[]| |[] m e]; try discriminate Hs; try reflexivity.
  cbn [SF2Prim]. rewrite Z_ldexp_spec, of_uint63_spec.
  pose proof (Uint63.to_Z_bounded (Uint63.of_Z (Zpos m))) as [Hb _].
  destruct (Uint63.to_Z (Uint63.of_Z (Zpos m))) as [|p|p]; [reflexivity| |lia].
  cbn [binary_normalize]. unfold binary_round.
  destruct (shl_align _ _ _) as [mz ez].
  generalize (binary_round_aux_sign_false (Zpos mz) ez loc_Exact).
  destruct (binary_round_aux _ _ _ _ _ _) as [[]|[]| |[] m' e']; intros H; try discriminate H; try reflexivity.
  apply binary_round_sign_false.
Qed.

(** The float nearest to a nonnegative rational is not negative. *)
Lemma float_sign_float_of_Q (q : Q) : 0 <= q -> float_sign (float_of_Q q) = false.
Proof.
  intros Hq. apply float_sign_SF2Prim. unfold sf_of_Q.
  destruct q as [[|n|n] d]; unfold Qle in Hq; cbn in Hq; cbn [Qnum Qden]; [reflexivity| |lia].
  unfold SFdiv. cbn [xorb]. destruct (SFdiv_core_binary _ _ _ _) as [[mz ez] lz].
  apply binary_round_aux_sign_false.
Qed.

(** [iv ** 2] of a float is never negative (nor [-0.0]). *)
Lemma pow_float_two_sign (iv r : float) : pow_float iv 2 = Ok r -> float_sign r = false.
Proof.
  unfold pow_float. change (float_of_int 2) with (Ok 2%float). cbn [bind].
  change (float_is_zero 2%float) with false. change (exponent_is_odd 2) with false.
  change (0 <? 2)%float with true. rewrite andb_false_r. cbn [negb].
  destruct (float_is_nan iv) eqn:En; [intros [= <-]; rewrite float_sign_sf, float_is_nan_sf in *;
    destruct (Prim2SF iv); try discriminate; reflexivity|].
  destruct (float_is_inf iv); [intros [= <-]; rewrite float_sign_sf, abs_spec;
    destruct (Prim2SF iv) as [[]|[]| |[] ? ?]; reflexivity|].
  destruct (float_is_zero iv); [intros [= <-]; reflexivity|].
  destruct (PrimFloat.abs iv =? 1)%float; [intros [= <-]; reflexivity|].
  destruct (Q_of_float (PrimFloat.abs iv)) as [q|]; [|intros [= <-]; reflexivity].
  destruct (float_is_inf _); [discriminate|]. intros [= <-].
  apply float_sign_float_of_Q.
  (* the magnitude is nonnegative *)
  change (q ^ Qfloor 2) with (q * q). destruct (Qlt_le_dec q 0) as [Hn|Hp].
  - setoid_replace (q * q) with ((- q) * (- q)) by ring.
    apply Qmult_le_0_compat; lra.
  - apply Qmult_le_0_compat; exact Hp.
Qed.

(** A float of positive sign below some number is not a NaN, so it is
    [>= 0]. *)
Lemma nonneg_of_sign (x y : float) :
  float_sign x = false -> (x <? y)%float = true -> (0 <=? x)%float = true.
Proof.
  rewrite float_sign_sf, ltb_spec, leb_spec, Prim2SF_zero.
  destruct (Prim2SF x) as [[]|[]| |[] m e]; intros Hs H; try discriminate; reflexivity.
Qed.
