(* ===== verification/StrFormat.v ===== *)
(** * [str.format] on positional arguments

    [InfoMessage.get_message] (line 25) calls [MESSAGE.format( *values)].
    This file models that method for the template language [MESSAGE] is
    written in: literal text with the escapes ["{{"] and ["}}"], replacement
    fields ["{}"] (automatic numbering) and ["{N}"] (manual numbering), each
    with an optional format specification after [":"].  As CPython's
    [MarkupIterator] does, the template is read left to right ([lex]) and
    each field is rendered as soon as it is read ([render]), so the first
    error in reading order is the one raised.

    Not modelled (the program's template uses none of them): conversions
    ([!r], [!s]), attribute and index access in field names (such a name is
    looked up as a keyword, and there are no keyword arguments, so the model
    raises [KeyError]), and nested fields inside a format specification.
    Format specifications other than the empty one and [.<p>f] are rejected
    with [ValueError]. *)

From Stdlib Require Import ZArith NArith String Ascii List.
From S2P Require Import Prelude FixedPoint PyArith.
Import ListNotations.
Local Open Scope string_scope.

(** ** Reading a template *)

(** The stream of template parts, ending in [TEnd] or in the error that
    stops the reading. *)
Inductive token : Type :=
| TEnd
| TFail (e : exn)
| TLit (s : string) (rest : token)
| TField (name : string) (spec : string) (rest : token).

Definition lit_then (acc : string) (t : token) : token :=
  if String.eqb acc "" then t else TLit acc t.

(** A field's text: its name, and its specification after the first
    colon. *)
Definition field_of (text : string) (rest : token) : token :=
  match split_at ":" text with
  | (name, None) => TField name "" rest
  | (name, Some spec) => TField name spec rest
  end.

(** [lex s in_field acc]: [acc] is the literal text (or the field text when
    [in_field]) read so far. *)
Fixpoint lex (s : string) (in_field : bool) (acc : string) : token :=
  match s with
  | EmptyString =>
      if in_field then TFail (ValueError "expected '}' before end of string")
      else lit_then acc TEnd
  | String c s' =>
      if in_field then
        if Ascii.eqb c "}" then field_of acc (lex s' false "")
        else lex s' true (acc ++ String c "")
      else if Ascii.eqb c "{" then
        match s' with
        | EmptyString => TFail (ValueError "Single '{' encountered in format string")
        | String c' s'' =>
            if Ascii.eqb c' "{" then lex s'' false (acc ++ "{")
            else lit_then acc (lex s' true "")
        end
      else if Ascii.eqb c "}" then
        match s' with
        | String c' s'' =>
            if Ascii.eqb c' "}" then lex s'' false (acc ++ "}")
            else TFail (ValueError "Single '}' encountered in format string")
        | EmptyString => TFail (ValueError "Single '}' encountered in format string")
        end
      else lex s' false (acc ++ String c "")
  end.

(** ** Field numbering *)

Inductive numbering : Type :=
| NUnset
| NAuto (next : nat)
| NManual.

(** The argument index a field name designates, and the numbering state
    after it. *)
Definition resolve (name : string) (st : numbering) : result (nat * numbering) :=
  if String.eqb name "" then
    match st with
    | NManual => Err (ValueError "cannot switch from manual field specification to automatic field numbering")
    | NUnset => Ok (0%nat, NAuto 1)
    | NAuto n => Ok (n, NAuto (S n))
    end
  else
    match parse_digits name 0 with
    | Some k =>
        match st with
        | NAuto _ => Err (ValueError "cannot switch from automatic field numbering to manual field specification")
        | _ => Ok (N.to_nat k, NManual)
        end
    | None => Err (KeyError ("'" ++ name ++ "'"))
    end.

(** ** Format specifications *)

(** The digits of a precision followed by the final ['f']. *)
Fixpoint parse_prec (s : string) (acc : N) (seen : bool) : option N :=
  match s with
  | EmptyString => None
  | String c EmptyString => if (Ascii.eqb c "f" && seen)%bool then Some acc else None
  | String c s' =>
      match char_digit c with
      | Some d => parse_prec s' (acc * 10 + d)%N true
      | None => None
      end
  end.

Definition parse_spec (spec : string) : option fmt_spec :=
  match spec with
  | EmptyString => Some FSDefault
  | String c s' =>
      if Ascii.eqb c "." then
        match parse_prec s' 0 false with
        | Some p => Some (FSFixed (N.to_nat p))
        | None => None
        end
      else None
  end.

(** ** Rendering *)

Section Render.
Context {V : Type} `{PyArith V}.

(** A positional argument: a [str] or a number. *)
Inductive fmt_arg : Type :=
| AStr (s : string)
| ANum (v : V).

(** [format(arg, spec)]. *)
Definition format_arg (a : fmt_arg) (spec : string) : result string :=
  match a, parse_spec spec with
  | AStr s, Some FSDefault => Ok s
  | AStr _, Some (FSFixed _) => Err (ValueError "Unknown format code 'f' for object of type 'str'")
  | AStr _, None => Err (ValueError ("Invalid format specifier '" ++ spec ++ "' for object of type 'str'"))
  | ANum v, Some fs => py_format v fs
  | ANum v, None =>
      Err (ValueError ("Invalid format specifier '" ++ spec ++ "' for object of type '" ++ py_type_name v ++ "'"))
  end.

Fixpoint render (t : token) (args : list fmt_arg) (st : numbering) : result string :=
  match t with
  | TEnd => Ok ""
  | TFail e => Err e
  | TLit s t' => let* r := render t' args st in Ok (s ++ r)
  | TField name spec t' =>
      let* ist := resolve name st in
      match nth_error args (fst ist) with
      | None =>
          Err (IndexError ("Replacement index " ++ show_N (N.of_nat (fst ist)) ++
                           " out of range for positional args tuple"))
      | Some a =>
          let* s := format_arg a spec in
          let* r := render t' args (snd ist) in
          Ok (s ++ r)
      end
  end.

(** [template.format( *args)]. *)
Definition str_format (template : string) (args : list fmt_arg) : result string :=
  render (lex template false "") args NUnset.
End Render.

Arguments fmt_arg : clear implicits.

(** ** The specifications of the program's template *)

Lemma format_arg_str_default {V : Type} `{PyArith V} (s : string) :
  format_arg (AStr s) "" = Ok s.
Proof. reflexivity. Qed.

Lemma format_arg_num_fixed3 {V : Type} `{PyArith V} (v : V) :
  format_arg (ANum v) ".3f" = py_format v (FSFixed 3).
Proof. reflexivity. Qed.

