(* ===== verification/InfoMessage.v ===== *)
(** * The summary record [InfoMessage] (lines 4-25)

    The dataclass has five fields, in this order: [training_type],
    [duration], [distance], [speed], [calories].  [MESSAGE] is a class
    constant without annotation, so it is not a field.  [get_message] passes
    [asdict(self).values()] (the fields in declaration order) to
    [MESSAGE.format]: the type name fills the first field, which has an
    empty specification, and the four numbers fill the fields [{:.3f}].

    Strings are the UTF-8 bytes of the source's text: [MESSAGE] is Russian
    text, and no byte of a multi-byte character is a brace or a colon, so
    reading the template byte by byte finds the same fields as Python does
    code point by code point. *)

From Stdlib Require Import ZArith QArith String List.
From S2P Require Import Prelude FixedPoint PyArith StrFormat.
Import ListNotations.
Local Open Scope string_scope.

Module InfoMessage.

(** [MESSAGE] (lines 12-16): the five adjacent literals, concatenated. *)
Definition MESSAGE : string :=
  "Тип тренировки: {}; " ++
  "Длительность: {:.3f} ч.; " ++
  "Дистанция: {:.3f} км; " ++
  "Ср. скорость: {:.3f} км/ч; " ++
  "Потрачено ккал: {:.3f}.".

Section WithArith.
Context {V : Type} `{PyArith V}.

Record InfoMessage : Type := mkInfoMessage {
  training_type : string;
  duration : V;
  distance : V;
  speed : V;
  calories : V
}.

(** [asdict(self).values()]: the fields in declaration order. *)
Definition asdict_values (m : InfoMessage) : list (fmt_arg V) :=
  [AStr (training_type m); ANum (duration m); ANum (distance m);
   ANum (speed m); ANum (calories m)].

(** [get_message] (lines 24-25). *)
Definition get_message (m : InfoMessage) : result string :=
  str_format MESSAGE (asdict_values m).
End WithArith.

Arguments InfoMessage : clear implicits.

(** Reading [MESSAGE] finds five fields, the first with the empty
    specification and the other four with [.3f], and the literal text
    between them. *)
Lemma lex_MESSAGE :
  lex MESSAGE false "" =
  TLit "Тип тренировки: " (TField "" ""
  (TLit "; Длительность: " (TField "" ".3f"
  (TLit " ч.; Дистанция: " (TField "" ".3f"
  (TLit " км; Ср. скорость: " (TField "" ".3f"
  (TLit " км/ч; Потрачено ккал: " (TField "" ".3f"
  (TLit "." TEnd)))))))))).
Proof. vm_compute. reflexivity. Qed.

(** Rendering [MESSAGE]: the lexed template, field by field. *)
Lemma get_message_render {V : Type} `{PyArith V} (m : InfoMessage V) :
  get_message m =
  let* d := py_format (duration m) (FSFixed 3) in
  let* di := py_format (distance m) (FSFixed 3) in
  let* sp := py_format (speed m) (FSFixed 3) in
  let* c := py_format (calories m) (FSFixed 3) in
  Ok ("Тип тренировки: " ++ training_type m ++ "; Длительность: " ++ d ++
      " ч.; Дистанция: " ++ di ++ " км; Ср. скорость: " ++ sp ++
      " км/ч; Потрачено ккал: " ++ c ++ ".").
Proof.
  unfold get_message, str_format. rewrite lex_MESSAGE.
  destruct m as [t d di sp c]. cbn [render resolve asdict_values nth_error fst snd String.eqb bind
    training_type duration distance speed calories].
  rewrite format_arg_str_default, !format_arg_num_fixed3. cbn [bind].
  destruct (py_format d (FSFixed 3)); [|reflexivity]. cbn [bind].
  destruct (py_format di (FSFixed 3)); [|reflexivity]. cbn [bind].
  destruct (py_format sp (FSFixed 3)); [|reflexivity]. cbn [bind].
  destruct (py_format c (FSFixed 3)); [|reflexivity]. cbn [bind].
  now rewrite string_app_nil_r.
Qed.

(** C5: [get_message] renders the type name as it is and each number with
    [format(x, '.3f')], in field order, between the literal pieces of
    [MESSAGE]; the first number that cannot be rendered stops it. *)
Theorem get_message_spec {V : Type} `{PyArith V} (m : InfoMessage V) :
  get_message m =
  let* d := py_format (duration m) (FSFixed 3) in
  let* di := py_format (distance m) (FSFixed 3) in
  let* sp := py_format (speed m) (FSFixed 3) in
  let* c := py_format (calories m) (FSFixed 3) in
  Ok ("Тип тренировки: " ++ training_type m ++ "; Длительность: " ++ d ++
      " ч.; Дистанция: " ++ di ++ " км; Ср. скорость: " ++ sp ++
      " км/ч; Потрачено ккал: " ++ c ++ ".").
Proof. apply get_message_render. Qed.

End InfoMessage.
