(* ===== verification/Training.v ===== *)
(** * The class hierarchy [Training], [Running], [SportsWalking], [Swimming]

    (lines 28-152.)  An instance is modelled by its class and its instance
    attributes: [Training.__init__] (lines 34-41) sets [action], [duration]
    and [weight] ([attrs]); [SportsWalking.__init__] adds [height] and
    [Swimming.__init__] adds [lenght_pool] and [count_pool] (the source's
    spelling).  Instances are never mutated after construction.

    Class attributes are resolved as Python's method resolution order does:
    [LEN_STEP] is [Training]'s except on [Swimming], which overrides it; the
    calorie coefficients are those of the class whose method reads them.
    Each method body of the source is one definition named after its
    qualified name ([Training_get_distance], [Swimming_get_mean_speed], ...);
    a call through [self] goes through the dispatching definitions
    ([get_distance], [get_mean_speed], [get_spent_calories]), which pick the
    body the instance's class resolves to.  Every operator is the
    [PyArith] operation, evaluated in Python's left-to-right order, and the
    first exception raised stops the method. *)

From Stdlib Require Import ZArith QArith String List Lia.
From S2P Require Import Prelude FixedPoint PyArith StrFormat InfoMessage.
Import ListNotations.
Local Open Scope string_scope.

(** The classes of the hierarchy. *)
Inductive pyclass : Type :=
| Training
| Running
| SportsWalking
| Swimming.

(** [type(self).__name__] and [self.__class__.__name__]. *)
Definition class_name (c : pyclass) : string :=
  match c with
  | Training => "Training"
  | Running => "Running"
  | SportsWalking => "SportsWalking"
  | Swimming => "Swimming"
  end.

(** ** Constructor signatures *)

(** The parameters after [self] of the [__init__] each class resolves to:
    [Running] inherits [Training.__init__] (lines 34-41); [SportsWalking]
    (lines 97-104) and [Swimming] (lines 129-137) define their own. *)
Definition init_params (c : pyclass) : list string :=
  match c with
  | Training | Running => ["action"; "duration"; "weight"]
  | SportsWalking => ["action"; "duration"; "weight"; "height"]
  | Swimming => ["action"; "duration"; "weight"; "length_pool"; "count_pool"]
  end.

(** The qualified name CPython (3.10 and later) puts in argument errors. *)
Definition init_qualname (c : pyclass) : string :=
  match c with
  | Training | Running => "Training.__init__"
  | SportsWalking => "SportsWalking.__init__"
  | Swimming => "Swimming.__init__"
  end.

(** The names of missing parameters as CPython lists them:
    ['a'], ['a' and 'b'], ['a', 'b', and 'c']. *)
Fixpoint join_names_tail (l : list string) : string :=
  match l with
  | [] => ""
  | [a] => "and '" ++ a ++ "'"
  | a :: l' => "'" ++ a ++ "', " ++ join_names_tail l'
  end.

Definition join_names (l : list string) : string :=
  match l with
  | [] => ""
  | [a] => "'" ++ a ++ "'"
  | [a; b] => "'" ++ a ++ "' and '" ++ b ++ "'"
  | a :: l' => "'" ++ a ++ "', " ++ join_names_tail l'
  end.

Definition show_nat (n : nat) : string := show_N (N.of_nat n).

(** The [TypeError] of a call of [c( *args)] with [m] arguments. *)
Definition arity_error (c : pyclass) (m : nat) : exn :=
  let ps := init_params c in
  let n := length ps in
  if Nat.ltb m n then
    let missing := skipn m ps in
    let k := length missing in
    TypeError (init_qualname c ++ "() missing " ++ show_nat k ++
               " required positional argument" ++ (if Nat.eqb k 1 then "" else "s") ++
               ": " ++ join_names missing)
  else
    TypeError (init_qualname c ++ "() takes " ++ show_nat (S n) ++
               " positional arguments but " ++ show_nat (S m) ++ " were given").

Section Hierarchy.
Context {V : Type} `{PyArith V}.

(** The attributes [Training.__init__] sets. *)
Record attrs : Type := mk_attrs {
  action : V;
  duration : V;
  weight : V
}.

(** An instance: its class, the base attributes and the attributes its own
    constructor adds. *)
Inductive training : Type :=
| TTraining (b : attrs)
| TRunning (b : attrs)
| TSportsWalking (b : attrs) (height : V)
| TSwimming (b : attrs) (lenght_pool count_pool : V).

Definition type_of (self : training) : pyclass :=
  match self with
  | TTraining _ => Training
  | TRunning _ => Running
  | TSportsWalking _ _ => SportsWalking
  | TSwimming _ _ _ => Swimming
  end.

Definition attrs_of (self : training) : attrs :=
  match self with
  | TTraining b | TRunning b | TSportsWalking b _ | TSwimming b _ _ => b
  end.

Definition no_attribute (self : training) (name : string) : exn :=
  AttributeError ("'" ++ class_name (type_of self) ++ "' object has no attribute '" ++ name ++ "'").

(** [self.height]: set only by [SportsWalking.__init__]. *)
Definition get_height (self : training) : result V :=
  match self with
  | TSportsWalking _ h => Ok h
  | _ => Err (no_attribute self "height")
  end.

(** [self.lenght_pool] and [self.count_pool]: set only by
    [Swimming.__init__]. *)
Definition get_lenght_pool (self : training) : result V :=
  match self with
  | TSwimming _ lp _ => Ok lp
  | _ => Err (no_attribute self "lenght_pool")
  end.

Definition get_count_pool (self : training) : result V :=
  match self with
  | TSwimming _ _ cp => Ok cp
  | _ => Err (no_attribute self "count_pool")
  end.

(** ** Class constants *)

(** [Training.M_IN_KM], [Training.MINUT_IN_HOUR] (lines 30, 32): no
    subclass overrides them. *)
Definition M_IN_KM : V := py_int 1000.
Definition MINUT_IN_HOUR : V := py_int 60.

(** [self.LEN_STEP]: [Training.LEN_STEP = 0.65] (line 31), overridden by
    [Swimming.LEN_STEP = 1.38] (line 125). *)
Definition LEN_STEP (c : pyclass) : V :=
  match c with
  | Swimming => py_float (138 # 100)
  | _ => py_float (65 # 100)
  end.

(** [Running] (lines 73-74). *)
Definition Running_COEFF_CALORIE_1 : V := py_int 18.
Definition Running_COEFF_CALORIE_2 : V := py_int 20.

(** [SportsWalking] (lines 93-95); the second one is an exponent. *)
Definition SportsWalking_COEFF_CALORIE_1 : V := py_float (35 # 1000).
Definition SportsWalking_COEFF_CALORIE_2 : Z := 2%Z.
Definition SportsWalking_COEFF_CALORIE_3 : V := py_float (29 # 1000).

(** [Swimming] (lines 126-127). *)
Definition Swimming_COEFF_CALORIE_1 : V := py_float (11 # 10).
Definition Swimming_COEFF_CALORIE_2 : V := py_int 2.

(** ** Methods *)

(** [Training.get_distance] (lines 43-45):
    [self.action * self.LEN_STEP / self.M_IN_KM]. *)
Definition Training_get_distance (self : training) : result V :=
  let* x := py_mul (action (attrs_of self)) (LEN_STEP (type_of self)) in
  py_truediv x M_IN_KM.

(** No subclass overrides [get_distance]. *)
Definition get_distance (self : training) : result V :=
  Training_get_distance self.

(** [Training.get_mean_speed] (lines 47-52):
    [self.get_distance() / self.duration]. *)
Definition Training_get_mean_speed (self : training) : result V :=
  let* d := get_distance self in
  py_truediv d (duration (attrs_of self)).

(** [Swimming.get_mean_speed] (lines 139-146):
    [self.lenght_pool * self.count_pool / self.M_IN_KM / self.duration]. *)
Definition Swimming_get_mean_speed (self : training) : result V :=
  let* lp := get_lenght_pool self in
  let* cp := get_count_pool self in
  let* x := py_mul lp cp in
  let* y := py_truediv x M_IN_KM in
  py_truediv y (duration (attrs_of self)).

Definition get_mean_speed (self : training) : result V :=
  match type_of self with
  | Swimming => Swimming_get_mean_speed self
  | _ => Training_get_mean_speed self
  end.

(** [Training.get_spent_calories] (lines 54-58): raises
    [NotImplementedError] naming the instance's class. *)
Definition Training_get_spent_calories (self : training) : result V :=
  Err (NotImplementedError ("Определите get_spent_calories в " ++
                            class_name (type_of self) ++ ".")).

(** [Running.get_spent_calories] (lines 76-88):
    [(18 * self.get_mean_speed() - 20) * self.weight / self.M_IN_KM
     * self.duration * self.MINUT_IN_HOUR]. *)
Definition Running_get_spent_calories (self : training) : result V :=
  let b := attrs_of self in
  let* sp := get_mean_speed self in
  let* x1 := py_mul Running_COEFF_CALORIE_1 sp in
  let* x2 := py_sub x1 Running_COEFF_CALORIE_2 in
  let* x3 := py_mul x2 (weight b) in
  let* x4 := py_truediv x3 M_IN_KM in
  let* x5 := py_mul x4 (duration b) in
  py_mul x5 MINUT_IN_HOUR.

(** [SportsWalking.get_spent_calories] (lines 106-120):
    [(0.035 * self.weight + (self.get_mean_speed() ** 2 // self.height)
      * 0.029 * self.weight) * self.duration * self.MINUT_IN_HOUR].
    The left operand of [+] is evaluated first. *)
Definition SportsWalking_get_spent_calories (self : training) : result V :=
  let b := attrs_of self in
  let* x1 := py_mul SportsWalking_COEFF_CALORIE_1 (weight b) in
  let* sp := get_mean_speed self in
  let* sq := py_pow sp SportsWalking_COEFF_CALORIE_2 in
  let* h := get_height self in
  let* fl := py_floordiv sq h in
  let* x2 := py_mul fl SportsWalking_COEFF_CALORIE_3 in
  let* x3 := py_mul x2 (weight b) in
  let* x4 := py_add x1 x3 in
  let* x5 := py_mul x4 (duration b) in
  py_mul x5 MINUT_IN_HOUR.

(** [Swimming.get_spent_calories] (lines 148-152):
    [(self.get_mean_speed() + 1.1) * 2 * self.weight]. *)
Definition Swimming_get_spent_calories (self : training) : result V :=
  let* sp := get_mean_speed self in
  let* x1 := py_add sp Swimming_COEFF_CALORIE_1 in
  let* x2 := py_mul x1 Swimming_COEFF_CALORIE_2 in
  py_mul x2 (weight (attrs_of self)).

Definition get_spent_calories (self : training) : result V :=
  match type_of self with
  | Training => Training_get_spent_calories self
  | Running => Running_get_spent_calories self
  | SportsWalking => SportsWalking_get_spent_calories self
  | Swimming => Swimming_get_spent_calories self
  end.

(** [Training.show_training_info] (lines 60-68): the arguments of
    [InfoMessage(...)] are evaluated left to right. *)
Definition show_training_info (self : training) : result (InfoMessage.InfoMessage V) :=
  let* di := get_distance self in
  let* sp := get_mean_speed self in
  let* ca := get_spent_calories self in
  Ok (InfoMessage.mkInfoMessage (class_name (type_of self)) (duration (attrs_of self)) di sp ca).

(** ** Construction *)

(** [cls( *args)]: the [__init__] the class resolves to binds the
    positional arguments, or raises [TypeError] when their number is not
    the number of its parameters ([arity_error]). *)
Definition construct (c : pyclass) (args : list V) : result training :=
  match c, args with
  | Training, [a; d; w] => Ok (TTraining (mk_attrs a d w))
  | Running, [a; d; w] => Ok (TRunning (mk_attrs a d w))
  | SportsWalking, [a; d; w; h] => Ok (TSportsWalking (mk_attrs a d w) h)
  | Swimming, [a; d; w; lp; cp] => Ok (TSwimming (mk_attrs a d w) lp cp)
  | _, _ => Err (arity_error c (length args))
  end.

End Hierarchy.

Arguments attrs : clear implicits.
Arguments training : clear implicits.

(** ** Properties of the hierarchy, for every arithmetic *)

Section HierarchyProps.
Context {V : Type} `{PyArith V}.

(** The constructor arguments an instance was built from, in order. *)
Definition attr_values (self : training V) : list V :=
  let b := attrs_of self in
  [action b; duration b; weight b] ++
  match self with
  | TSportsWalking _ h => [h]
  | TSwimming _ lp cp => [lp; cp]
  | _ => []
  end.

Lemma attr_values_length (self : training V) :
  length (attr_values self) = length (init_params (type_of self)).
Proof. destruct self; reflexivity. Qed.

(** C13: [cls( *args)] builds an instance of [cls] holding the arguments in
    order exactly when their number is the number of parameters of the
    [__init__] [cls] resolves to, and raises the [TypeError] CPython
    raises otherwise. *)
Theorem construct_spec (c : pyclass) (args : list V) :
  match construct c args with
  | Ok t => type_of t = c /\ attr_values t = args
  | Err e => length args <> length (init_params c) /\ e = arity_error c (length args)
  end.
Proof.
  destruct c; destruct args as [|a0 [|a1 [|a2 [|a3 [|a4 [|a5 args]]]]]];
    simpl; split; first [reflexivity | lia].
Qed.

(** Building an instance back from its class and its attributes gives the
    same instance. *)
Lemma construct_attr_values (self : training V) :
  construct (type_of self) (attr_values self) = Ok self.
Proof. destruct self as [[a d w]|[a d w]|[a d w] h|[a d w] lp cp]; reflexivity. Qed.

(** C15: [Swimming.get_mean_speed] overrides the default: the speed of a
    swim reads only the pool length, the pool count and the duration, not
    the stroke count nor the weight. *)
Theorem swimming_speed_ignores_action (a a' d w w' lp cp : V) :
  get_mean_speed (TSwimming (mk_attrs a d w) lp cp) =
  get_mean_speed (TSwimming (mk_attrs a' d w') lp cp).
Proof. reflexivity. Qed.

(** C14: on an instance of the base class, [show_training_info] evaluates
    the distance and the speed and then raises the [NotImplementedError]
    of [Training.get_spent_calories], naming the class. *)
Theorem show_training_info_base (b : attrs V) :
  show_training_info (TTraining b) =
  let* _ := get_distance (TTraining b) in
  let* _ := get_mean_speed (TTraining b) in
  Err (NotImplementedError "Определите get_spent_calories в Training.").
Proof.
  unfold show_training_info. destruct (get_distance (TTraining b)); [|reflexivity].
  simpl. destruct (get_mean_speed (TTraining b)); reflexivity.
Qed.

End HierarchyProps.
