(* ===== verification/ReadPackage.v ===== *)
(** * [read_package], [main] and the driver (lines 155-182)

    [read_package] looks the workout code up in the dictionary literal
    [parameters_workout] and calls the class it finds with the data list
    spread as positional arguments ([Training.construct]); an absent code
    raises [ValueError] with the f-string message of line 164.

    [main] prints the rendered message of a training: standard output is
    modelled as the list of the lines printed so far.  The driver runs
    [read_package] and [main] over the packages in order; an exception
    propagates out of the loop, so the lines of the packages before it stay
    printed and no later package runs ([run_packages] returns the lines and
    the exception that stopped it, if any). *)

From Stdlib Require Import ZArith QArith String List Lia.
From S2P Require Import Prelude FixedPoint PyArith Binary64 StrFormat InfoMessage Training.
Import ListNotations.
Local Open Scope string_scope.

(** [parameters_workout] (lines 157-160), in insertion order. *)
Definition parameters_workout : list (string * pyclass) :=
  [("SWM", Swimming); ("RUN", Running); ("WLK", SportsWalking)].

(** [d[key]] when [key in d], by string equality. *)
Fixpoint dict_get (key : string) (d : list (string * pyclass)) : option pyclass :=
  match d with
  | [] => None
  | (k, v) :: d' => if String.eqb key k then Some v else dict_get key d'
  end.

Section Package.
Context {V : Type} `{PyArith V}.

(** [read_package(workout_type, data)] (lines 155-164). *)
Definition read_package (workout_type : string) (data : list V) : result (training V) :=
  match dict_get workout_type parameters_workout with
  | Some cls => construct cls data
  | None => Err (ValueError ("Тренировка " ++ workout_type ++ " не найдена"))
  end.

(** [main(training)] (lines 167-170): [stdout] is what was printed
    before; the result is what is printed after. *)
Definition main (training : training V) (stdout : list string) : result (list string) :=
  let* info := show_training_info training in
  let* msg := InfoMessage.get_message info in
  Ok (stdout ++ [msg])%list.

(** The loop of lines 180-182: the printed lines, and the exception that
    ended the run early, if one did. *)
Fixpoint run_packages (packages : list (string * list V)) (stdout : list string)
  : list string * option exn :=
  match packages with
  | [] => (stdout, None)
  | (workout_type, data) :: rest =>
      match (let* training := read_package workout_type data in main training stdout) with
      | Ok stdout' => run_packages rest stdout'
      | Err e => (stdout, Some e)
      end
  end.

(** The sample packages (lines 174-178): lists of [int] literals. *)
Definition packages : list (string * list V) :=
  [("SWM", map py_int [720; 1; 80; 25; 40]%Z);
   ("RUN", map py_int [15000; 1; 75]%Z);
   ("WLK", map py_int [9000; 1; 75; 180]%Z)].

(** Running the script. *)
Definition run_script : list string * option exn := run_packages packages [].
End Package.

(** ** Properties of dispatch and of the driver *)

Lemma dict_get_in (key : string) (c : pyclass) :
  dict_get key parameters_workout = Some c -> In (key, c) parameters_workout.
Proof.
  simpl. destruct (String.eqb_spec key "SWM"); [intros [= <-]; subst; now left|].
  destruct (String.eqb_spec key "RUN"); [intros [= <-]; subst; right; now left|].
  destruct (String.eqb_spec key "WLK"); [intros [= <-]; subst; right; right; now left|].
  discriminate.
Qed.

Lemma dict_get_none (key : string) :
  ~ In key (map fst parameters_workout) -> dict_get key parameters_workout = None.
Proof.
  intros Hk. simpl.
  destruct (String.eqb_spec key "SWM"); [subst; exfalso; apply Hk; simpl; auto|].
  destruct (String.eqb_spec key "RUN"); [subst; exfalso; apply Hk; simpl; auto|].
  destruct (String.eqb_spec key "WLK"); [subst; exfalso; apply Hk; simpl; auto|].
  reflexivity.
Qed.

Section PackageProps.
Context {V : Type} `{PyArith V}.

(** C11: a package is read into an instance of the class its code names
    in [parameters_workout] (never the base class), holding the data in
    order. *)
Theorem read_package_ok (code : string) (data : list V) (t : training V) :
  read_package code data = Ok t ->
  In (code, type_of t) parameters_workout /\ type_of t <> Training /\ attr_values t = data.
Proof.
  unfold read_package. destruct (dict_get code parameters_workout) as [c|] eqn:Ec; [|discriminate].
  intros Hc. pose proof (construct_spec c data) as Hs. rewrite Hc in Hs.
  destruct Hs as [<- Hv]. apply dict_get_in in Ec.
  split; [exact Ec|]. split; [|exact Hv].
  intros Et. rewrite Et in Ec. simpl in Ec. intuition discriminate.
Qed.

(** C2: a code that is not a key of [parameters_workout] raises
    [ValueError] whose message holds the code, whatever the data. *)
Theorem read_package_unknown (code : string) (data : list V) :
  ~ In code (map fst parameters_workout) ->
  read_package code data = Err (ValueError ("Тренировка " ++ code ++ " не найдена")).
Proof. intros Hk. unfold read_package. now rewrite dict_get_none. Qed.

(** C12: a known code with a data list of the wrong length raises the
    [TypeError] of the class's constructor, not a [ValueError]. *)
Theorem read_package_arity (code : string) (c : pyclass) (data : list V) :
  In (code, c) parameters_workout ->
  length data <> length (init_params c) ->
  read_package code data = Err (arity_error c (length data)).
Proof.
  intros Hin Hlen. unfold read_package.
  assert (Ec : dict_get code parameters_workout = Some c).
  { simpl in Hin. destruct Hin as [[= <- <-]|[[= <- <-]|[[= <- <-]|[]]]]; reflexivity. }
  rewrite Ec. pose proof (construct_spec c data) as Hs.
  destruct (construct c data) as [t|e].
  - exfalso. destruct Hs as [<- Hv]. apply Hlen. rewrite <- Hv. apply attr_values_length.
  - now destruct Hs as [_ ->].
Qed.

(** Running two lists of packages one after the other is running their
    concatenation: the second list runs only when the first raised
    nothing. *)
Lemma run_packages_app (ps1 ps2 : list (string * list V)) (out : list string) :
  run_packages (ps1 ++ ps2) out =
  match run_packages ps1 out with
  | (out', None) => run_packages ps2 out'
  | (out', Some e) => (out', Some e)
  end.
Proof.
  revert out. induction ps1 as [|[wt data] ps1 IH]; intros out; simpl; [reflexivity|].
  destruct (let* t := read_package wt data in main t out); [apply IH | reflexivity].
Qed.


End PackageProps.

(** ** Witnesses, on CPython's numbers *)

Section Witnesses.
Import CPython.

(** The spec's example of a known code. *)
Lemma read_package_ok_witness :
  read_package "RUN" [PInt 15000; PInt 1; PInt 75] = Ok (TRunning (mk_attrs (PInt 15000) (PInt 1) (PInt 75))) /\
  In ("RUN", type_of (TRunning (mk_attrs (PInt 15000) (PInt 1) (PInt 75)))) parameters_workout /\
  type_of (TRunning (mk_attrs (PInt 15000) (PInt 1) (PInt 75))) <> Training /\
  attr_values (TRunning (mk_attrs (PInt 15000) (PInt 1) (PInt 75))) = [PInt 15000; PInt 1; PInt 75].
Proof.
  split; [reflexivity|].
  apply (read_package_ok "RUN" [PInt 15000; PInt 1; PInt 75] (TRunning (mk_attrs (PInt 15000) (PInt 1) (PInt 75)))).
  reflexivity.
Defined.

(** The spec's example of an unknown code. *)
Lemma read_package_unknown_witness :
  ~ In "XYZ" (map fst parameters_workout) /\
  read_package "XYZ" [PInt 1; PInt 1; PInt 1] = Err (ValueError "Тренировка XYZ не найдена").
Proof.
  assert (H : ~ In "XYZ" (map fst parameters_workout)) by (simpl; intuition discriminate).
  split; [exact H | apply (read_package_unknown "XYZ" [PInt 1; PInt 1; PInt 1] H)].
Defined.

(** A swim with three readings instead of five. *)
Lemma read_package_arity_witness :
  read_package "SWM" [PInt 720; PInt 1; PInt 80] =
  Err (TypeError "Swimming.__init__() missing 2 required positional arguments: 'length_pool' and 'count_pool'").
Proof. apply (read_package_arity "SWM" Swimming [PInt 720; PInt 1; PInt 80]); simpl; [auto | lia]. Defined.
End Witnesses.
