(* ===== verification/Errors.v ===== *)
(** * Which exceptions escape the program

    The arithmetic of Python raises only [ZeroDivisionError] (a zero
    divisor, [0.0 ** -n]) and [OverflowError] (an [int] or a result out of
    the float range).  The class [ArithErrors] states this law of a
    [PyArith] instance, operation by operation; CPython's [int] and [float]
    ([Binary64]) discharge it ([ArithErrors_pynum], at the end of the file).

    Against the law alone, the methods of the subclasses, their report
    ([show_training_info]), [InfoMessage.get_message] and the driver are
    shown to raise nothing else: no [AttributeError] (every attribute a
    method reads is set by the constructor of the class that dispatches to
    it), no [NotImplementedError] (the dictionary of [read_package] never
    builds the base class), no [KeyError] or [IndexError] from
    [str.format] (the template's fields are all automatic).  The only
    other exceptions of a run are the [ValueError] of an unknown code and
    the [TypeError] of a data list of the wrong length. *)

From Stdlib Require Import ZArith QArith String List Lia Floats.
From S2P Require Import Prelude FixedPoint PyArith Binary64 StrFormat InfoMessage Training ReadPackage.
Import ListNotations.
Local Open Scope string_scope.

(** The exceptions of Python's numeric operators. *)
Definition arith_exn (e : exn) : bool :=
  match e with ZeroDivisionError | OverflowError => true | _ => false end.

Class ArithErrors (V : Type) `{PyArith V} : Prop := {
  add_errors : forall x y e, py_add x y = Err e -> arith_exn e = true;
  sub_errors : forall x y e, py_sub x y = Err e -> arith_exn e = true;
  mul_errors : forall x y e, py_mul x y = Err e -> arith_exn e = true;
  truediv_errors : forall x y e, py_truediv x y = Err e -> arith_exn e = true;
  floordiv_errors : forall x y e, py_floordiv x y = Err e -> arith_exn e = true;
  pow_errors : forall x n e, py_pow x n = Err e -> arith_exn e = true;
  format_errors : forall x s e, py_format x s = Err e -> arith_exn e = true
}.

Create HintDb arith_errors.
#[export] Hint Resolve add_errors sub_errors mul_errors truediv_errors
  floordiv_errors pow_errors format_errors : arith_errors.

(** Split a chain of [let*] that raised into the step that raised. *)
Ltac err_split :=
  repeat match goal with
  | H : bind _ _ = Err _ |- _ =>
      apply bind_eq_Err in H; destruct H as [H | (? & ? & H)]
  | H : Ok _ = Err _ |- _ => discriminate H
  | H : Err _ = Err _ |- _ => injection H as <-
  end.

Ltac err_tac := intros; err_split; eauto with arith_errors.

(** ** Construction and dispatch *)

Lemma construct_err {V : Type} (c : pyclass) (args : list V) (e : exn) :
  construct c args = Err e -> e = arity_error c (length args).
Proof.
  destruct c; destruct args as [|a0 [|a1 [|a2 [|a3 [|a4 [|a5 args]]]]]];
    simpl; congruence.
Qed.

Lemma construct_type {V : Type} (c : pyclass) (args : list V) (t : training V) :
  construct c args = Ok t -> type_of t = c.
Proof.
  destruct c; destruct args as [|a0 [|a1 [|a2 [|a3 [|a4 [|a5 args]]]]]];
    simpl; intros [= <-]; reflexivity.
Qed.

Lemma parameters_workout_no_base (code : string) (c : pyclass) :
  In (code, c) parameters_workout -> c <> Training.
Proof. simpl. intros [[= _ <-]|[[= _ <-]|[[= _ <-]|[]]]]; discriminate. Qed.

(** [read_package] raises the [ValueError] of an unknown code or the
    [TypeError] of a constructor, and never builds the base class. *)
Lemma read_package_err {V : Type} `{PyArith V} (code : string) (data : list V) (e : exn) :
  read_package code data = Err e ->
  e = ValueError ("Тренировка " ++ code ++ " не найдена") \/
  exists c, e = arity_error c (length data).
Proof.
  unfold read_package. destruct (dict_get code parameters_workout) as [c|].
  - intros He. right. exists c. exact (construct_err _ _ _ He).
  - intros [= <-]. now left.
Qed.

Lemma read_package_not_base {V : Type} `{PyArith V} (code : string) (data : list V) (t : training V) :
  read_package code data = Ok t -> type_of t <> Training.
Proof.
  unfold read_package. destruct (dict_get code parameters_workout) as [c|] eqn:Ec; [|discriminate].
  intros Ht. rewrite (construct_type _ _ _ Ht).
  exact (parameters_workout_no_base _ _ (dict_get_in _ _ Ec)).
Qed.

(** ** The methods, against the law *)

Section Errors.
Context {V : Type} `{HA : PyArith V} `{!ArithErrors V}.

Lemma get_distance_errors (t : training V) (e : exn) :
  get_distance t = Err e -> arith_exn e = true.
Proof. unfold get_distance, Training_get_distance. err_tac. Qed.

#[local] Hint Resolve get_distance_errors : arith_errors.

Lemma get_mean_speed_errors (t : training V) (e : exn) :
  get_mean_speed t = Err e -> arith_exn e = true.
Proof.
  destruct t; unfold get_mean_speed, Training_get_mean_speed, Swimming_get_mean_speed;
    cbn [type_of get_lenght_pool get_count_pool]; err_tac.
Qed.

#[local] Hint Resolve get_mean_speed_errors : arith_errors.

(** The calorie formulas of the subclasses read only attributes their
    constructors set. *)
Lemma get_spent_calories_errors (t : training V) (e : exn) :
  type_of t <> Training -> get_spent_calories t = Err e -> arith_exn e = true.
Proof.
  destruct t; cbn [type_of]; intros Hc; [congruence| | |];
    unfold get_spent_calories, Running_get_spent_calories,
      SportsWalking_get_spent_calories, Swimming_get_spent_calories;
    cbn [type_of get_height]; err_tac.
Qed.

#[local] Hint Resolve get_spent_calories_errors : arith_errors.

(** C7: on an instance of a subclass, [show_training_info] raises only the
    exceptions of the arithmetic, [ZeroDivisionError] and [OverflowError]:
    never an [AttributeError] nor a [NotImplementedError]. *)
Theorem show_training_info_errors (t : training V) (e : exn) :
  type_of t <> Training -> show_training_info t = Err e -> arith_exn e = true.
Proof. intros Hc. unfold show_training_info. err_tac. Qed.

Lemma get_message_errors (m : InfoMessage.InfoMessage V) (e : exn) :
  InfoMessage.get_message m = Err e -> arith_exn e = true.
Proof. rewrite InfoMessage.get_message_render. err_tac. Qed.

Lemma main_errors (t : training V) (out : list string) (e : exn) :
  type_of t <> Training -> main t out = Err e -> arith_exn e = true.
Proof.
  intros Hc. unfold main, show_training_info. err_tac. eauto using get_message_errors.
Qed.
End Errors.

Section Driver.
Context {V : Type} `{HA : PyArith V} `{!ArithErrors V}.

(** C6: a run of the driver stops only on the exceptions of the arithmetic,
    on the [ValueError] of a code one of the packages holds that is not a
    key of [parameters_workout], or on the [TypeError] of a constructor
    called with the wrong number of values. *)
Theorem run_packages_errors (ps : list (string * list V)) (out : list string) (e : exn) :
  snd (run_packages ps out) = Some e ->
  arith_exn e = true \/
  (exists code, In code (map fst ps) /\ e = ValueError ("Тренировка " ++ code ++ " не найдена")) \/
  (exists c n, e = arity_error c n).
Proof.
  revert out. induction ps as [|[wt data] ps IH]; intros out; simpl; [discriminate|].
  destruct (let* t := read_package wt data in main t out) as [out'|e'] eqn:Er.
  - intros He. destruct (IH out' He) as [?|[(code & Hin & ->)|?]]; [now left| |now right; right].
    right; left. exists code. auto.
  - intros [= <-]. apply bind_eq_Err in Er. destruct Er as [Er|(t & Ht & Er)].
    + destruct (read_package_err _ _ _ Er) as [->|[c ->]]; right; [left|right]; eauto.
    + left. exact (main_errors t out e' (read_package_not_base _ _ _ Ht) Er).
Qed.
End Driver.

(** ** CPython's arithmetic obeys the law *)

Import CPython.

Lemma float_of_int_errors (z : Z) (e : exn) :
  float_of_int z = Err e -> e = OverflowError.
Proof. unfold float_of_int. destruct (float_is_inf _); congruence. Qed.

Lemma to_float_errors (x : pynum) (e : exn) :
  to_float x = Err e -> e = OverflowError.
Proof. destruct x; simpl; [apply float_of_int_errors | discriminate]. Qed.

(** The exception a chain of conversions and operations raised. *)
Ltac conv_err :=
  intros;
  repeat match goal with
  | H : to_float _ = Err _ |- _ => apply to_float_errors in H; subst
  | H : float_of_int _ = Err _ |- _ => apply float_of_int_errors in H; subst
  | H : (if ?b then _ else _) = _ |- _ => destruct b
  | H : match ?o with Some _ => _ | None => _ end = _ |- _ => destruct o
  | H : bind _ _ = Err _ |- _ =>
      apply bind_eq_Err in H; destruct H as [H | (? & ? & H)]
  | H : Ok _ = Err _ |- _ => discriminate H
  | H : Err _ = Err _ |- _ => injection H as <-
  end; reflexivity.

#[export] Instance ArithErrors_pynum : ArithErrors pynum.
Proof.
  split; cbn.
  - intros [a|a] [b|b]; simpl; [discriminate| | |]; unfold arith; conv_err.
  - intros [a|a] [b|b]; simpl; [discriminate| | |]; unfold arith; conv_err.
  - intros [a|a] [b|b]; simpl; [discriminate| | |]; unfold arith; conv_err.
  - intros [a|a] [b|b]; unfold truediv, int_truediv; conv_err.
  - intros [a|a] [b|b]; unfold floordiv; conv_err.
  - intros [a|a] n; unfold pow, pow_float; conv_err.
  - intros [a|a] [|p]; unfold format; conv_err.
Qed.

(** ** Witnesses, on CPython's numbers *)

Section Witnesses.
Import CPython.

Lemma show_training_info_errors_witness :
  type_of (TRunning (mk_attrs (PInt 15000) (PInt 0) (PInt 75))) <> Training /\
  show_training_info (TRunning (mk_attrs (PInt 15000) (PInt 0) (PInt 75))) = Err ZeroDivisionError /\
  arith_exn ZeroDivisionError = true.
Proof.
  assert (Hc : type_of (TRunning (mk_attrs (PInt 15000) (PInt 0) (PInt 75))) <> Training) by discriminate.
  assert (He : show_training_info (TRunning (mk_attrs (PInt 15000) (PInt 0) (PInt 75))) = Err ZeroDivisionError)
    by (vm_compute; reflexivity).
  split; [exact Hc|]. split; [exact He|]. exact (show_training_info_errors _ _ Hc He).
Defined.

Lemma run_packages_errors_witness :
  snd (run_packages [("RUN", [PInt 15000; PInt 1; PInt 75]); ("XYZ", [PInt 1; PInt 1; PInt 1])] []) =
    Some (ValueError "Тренировка XYZ не найдена") /\
  (arith_exn (ValueError "Тренировка XYZ не найдена") = true \/
   (exists code, In code (map fst [("RUN", [PInt 15000; PInt 1; PInt 75]); ("XYZ", [PInt 1; PInt 1; PInt 1])]) /\
      ValueError "Тренировка XYZ не найдена" = ValueError ("Тренировка " ++ code ++ " не найдена")) \/
   (exists c n, ValueError "Тренировка XYZ не найдена" = arity_error c n)).
Proof.
  assert (He : snd (run_packages [("RUN", [PInt 15000; PInt 1; PInt 75]); ("XYZ", [PInt 1; PInt 1; PInt 1])] []) =
    Some (ValueError "Тренировка XYZ не найдена")) by (vm_compute; reflexivity).
  split; [exact He | exact (run_packages_errors _ _ _ He)].
Defined.
End Witnesses.
