(* ===== verification/FloatProps.v ===== *)
(** * The program on CPython's [int] and [float]

    Properties of the program run on the binary64 instance ([Binary64]):
    the distance, the speed and the calories of a report are floats and
    its duration converts to one, so every computed report is printed; a
    zero divisor ([0], [0.0] or [-0.0]) raises [ZeroDivisionError] once
    the dividend has been converted; a zero duration never gives a report;
    an [int] action beyond the float range raises [OverflowError].  Two
    concrete runs show the rounding error of a float formula and the
    negative calories of a slow run. *)

From Stdlib Require Import ZArith QArith String List Lia Floats.
From S2P Require Import Prelude FixedPoint PyArith Binary64 StrFormat InfoMessage Training ReadPackage Errors.
Import ListNotations CPython.
Local Open Scope string_scope.

Definition is_float (x : pynum) : bool :=
  match x with PFloat _ => true | PInt _ => false end.

(** [x == 0] of a Python number: [0], [0.0] and [-0.0]. *)
Definition is_zero_num (x : pynum) : bool :=
  match x with PInt z => (z =? 0)%Z | PFloat f => float_is_zero f end.

(** ** Conversions *)

Lemma float_of_int_zero : float_of_int 0 = Ok 0%float.
Proof. vm_compute. reflexivity. Qed.

Lemma to_float_float (x : pynum) : is_float x = true -> exists f, to_float x = Ok f.
Proof. destruct x; simpl; [discriminate | eauto]. Qed.

(** ** Which results are floats *)

Lemma arith_float_l zop fop (x y r : pynum) :
  arith zop fop x y = Ok r -> is_float x = true -> is_float r = true.
Proof. destruct x, y; simpl; try discriminate; intros Hr _; inv_bind; subst; reflexivity. Qed.

Lemma arith_float_r zop fop (x y r : pynum) :
  arith zop fop x y = Ok r -> is_float y = true -> is_float r = true.
Proof. destruct x, y; simpl; try discriminate; intros Hr _; inv_bind; subst; reflexivity. Qed.

(** [/] always gives a float, also on two ints. *)
Lemma truediv_float (x y r : pynum) : truediv x y = Ok r -> is_float r = true.
Proof.
  destruct x, y; unfold truediv, int_truediv; intros Hr; inv_bind;
    repeat match goal with H : (if ?b then _ else _) = _ |- _ => destruct b end;
    inv_bind; subst; reflexivity.
Qed.

Lemma floordiv_float_l (x y r : pynum) : floordiv x y = Ok r -> is_float x = true -> is_float r = true.
Proof.
  destruct x, y; unfold floordiv; simpl; try discriminate; intros Hr _; inv_bind;
    destruct (float_is_zero _); inv_bind; subst; reflexivity.
Qed.

Lemma floordiv_float_r (x y r : pynum) : floordiv x y = Ok r -> is_float y = true -> is_float r = true.
Proof.
  destruct x, y; unfold floordiv; simpl; try discriminate; intros Hr _; inv_bind;
    destruct (float_is_zero _); inv_bind; subst; reflexivity.
Qed.

Lemma pow_float_l (x r : pynum) (n : Z) : pow x n = Ok r -> is_float x = true -> is_float r = true.
Proof. destruct x; simpl; [discriminate|]. intros Hr _. inv_bind. subst. reflexivity. Qed.

Create HintDb floats.
#[export] Hint Resolve truediv_float arith_float_l arith_float_r floordiv_float_l
  floordiv_float_r pow_float_l : floats.
#[export] Hint Extern 1 (is_float _ = true) => reflexivity : floats.

Ltac cpython_ops :=
  cbn [py_add py_sub py_mul py_truediv py_floordiv py_pow py_format PyArith_pynum] in *.

Lemma get_distance_float (t : training pynum) (d : pynum) :
  get_distance t = Ok d -> is_float d = true.
Proof. unfold get_distance, Training_get_distance. intros Hd. inv_bind. cpython_ops. eauto with floats. Qed.

Lemma get_mean_speed_float (t : training pynum) (v : pynum) :
  get_mean_speed t = Ok v -> is_float v = true.
Proof.
  destruct t; unfold get_mean_speed, Training_get_mean_speed, Swimming_get_mean_speed;
    cbn [type_of get_lenght_pool get_count_pool]; intros Hv; inv_bind; cpython_ops; eauto with floats.
Qed.

#[local] Hint Resolve get_mean_speed_float : floats.

Lemma get_spent_calories_float (t : training pynum) (c : pynum) :
  type_of t <> Training -> get_spent_calories t = Ok c -> is_float c = true.
Proof.
  destruct t; cbn [type_of]; intros Hc; [congruence| | |];
    unfold get_spent_calories, Running_get_spent_calories,
      SportsWalking_get_spent_calories, Swimming_get_spent_calories;
    cbn [type_of get_height]; intros Hr; inv_bind; cpython_ops; eauto 12 with floats.
Qed.

(** [format(x, '.<p>f')] raises exactly when [x] does not convert to a
    float. *)
Lemma format_fixed_ok (x : pynum) (p : nat) :
  is_ok (Binary64.format x (FSFixed p)) = is_ok (to_float x).
Proof. destruct x as [z|f]; [cbn [to_float Binary64.format]; now destruct (float_of_int z)|reflexivity]. Qed.

(** A zero divisor once the dividend has been converted. *)
Lemma zero_divisor_converted (x y : pynum) (a : float) :
  to_float x = Ok a -> is_zero_num y = true ->
  truediv x y = Err ZeroDivisionError /\ floordiv x y = Err ZeroDivisionError.
Proof.
  intros Hx Hy. destruct y as [b|fy]; simpl in Hy.
  - apply Z.eqb_eq in Hy. subst b. destruct x as [a'|fx]; [split; reflexivity|].
    unfold truediv, floordiv. cbn [to_float bind]. rewrite float_of_int_zero. split; reflexivity.
  - unfold truediv, floordiv. destruct x; cbn [to_float] in Hx |- *; rewrite Hx; cbn [bind];
      rewrite Hy; split; reflexivity.
Qed.

Lemma to_float_PInt_1000 : to_float (PInt 1000) = Ok 1000%float.
Proof. vm_compute. reflexivity. Qed.

Lemma float_truediv_1000 (a : float) : truediv (PFloat a) (PInt 1000) = Ok (PFloat (a / 1000)%float).
Proof. reflexivity. Qed.

Lemma truediv_zero_of_float (x y : pynum) :
  is_float x = true -> is_zero_num y = true -> truediv x y = Err ZeroDivisionError.
Proof.
  intros Hx Hy. destruct (to_float_float x Hx) as [a Ha].
  exact (proj1 (zero_divisor_converted x y a Ha Hy)).
Qed.

#[local] Hint Resolve get_distance_float : floats.

(** With a zero duration the mean speed is never computed. *)
Lemma mean_speed_zero_duration (t : training pynum) (v : pynum) :
  is_zero_num (duration (attrs_of t)) = true -> get_mean_speed t <> Ok v.
Proof.
  intros Hz Hv. destruct t; unfold get_mean_speed, Training_get_mean_speed, Swimming_get_mean_speed in Hv;
    cbn [type_of get_lenght_pool get_count_pool attrs_of] in *; inv_bind; cpython_ops;
    match goal with H : truediv ?d ?z = Ok v |- _ =>
      rewrite (truediv_zero_of_float d z) in H; [discriminate | eauto with floats | assumption]
    end.
Qed.

(** On float readings the distance and the dividend of the speed are
    computed, and a zero duration raises in the last division. *)
Lemma mean_speed_zero_duration_floats (t : training pynum) :
  forallb is_float (attr_values t) = true -> is_zero_num (duration (attrs_of t)) = true ->
  (exists d, get_distance t = Ok d) /\ get_mean_speed t = Err ZeroDivisionError.
Proof.
  intros Hf Hz. destruct t as [[a d w]|[a d w]|[a d w] h|[a d w] lp cp];
    repeat match goal with x : pynum |- _ => destruct x as [?|x]; try discriminate Hf end;
    cbn [attrs_of duration is_zero_num] in Hz;
    unfold get_mean_speed, Training_get_mean_speed, Swimming_get_mean_speed, get_distance,
      Training_get_distance, LEN_STEP, M_IN_KM;
    cbn [type_of attrs_of action duration get_lenght_pool get_count_pool
      py_mul py_truediv py_int py_float PyArith_pynum arith to_float bind];
    rewrite !float_truediv_1000; cbn [bind]; (split; [eexists; reflexivity|]);
    unfold truediv; cbn [to_float bind]; rewrite Hz; reflexivity.
Qed.

(** ** Zero divisors and conversions *)

(** ** The report on CPython numbers *)

(** A float divided by [y] converted [y]. *)
Lemma truediv_converts (x y r : pynum) :
  is_float x = true -> truediv x y = Ok r -> is_ok (to_float y) = true.
Proof.
  destruct x as [|a]; [discriminate|]. intros _. unfold truediv.
  destruct y as [b|b]; cbn [to_float bind]; [|reflexivity].
  now destruct (float_of_int b).
Qed.

(** The duration of a computed speed is the divisor of a float. *)
Lemma mean_speed_duration_converts (t : training pynum) (v : pynum) :
  get_mean_speed t = Ok v -> is_ok (to_float (duration (attrs_of t))) = true.
Proof.
  intros Hv. destruct t; unfold get_mean_speed, Training_get_mean_speed, Swimming_get_mean_speed in Hv;
    cbn [type_of get_lenght_pool get_count_pool attrs_of] in *; inv_bind; cpython_ops;
    match goal with H : truediv ?d ?z = Ok v |- _ =>
      apply (truediv_converts d z v); [eauto with floats | exact H]
    end.
Qed.

(** The fields of a computed report: the duration converts to a float
    (it has divided a float), the three computed values are floats. *)
Lemma report_fields (t : training pynum) (m : InfoMessage.InfoMessage pynum) :
  show_training_info t = Ok m ->
  is_ok (to_float (InfoMessage.duration m)) = true /\ is_float (InfoMessage.distance m) = true /\
  is_float (InfoMessage.speed m) = true /\ is_float (InfoMessage.calories m) = true.
Proof.
  unfold show_training_info.
  destruct (get_distance t) as [di|] eqn:Ed; [|discriminate]. cbn [bind].
  destruct (get_mean_speed t) as [sp|] eqn:Es; [|discriminate]. cbn [bind].
  destruct (get_spent_calories t) as [ca|] eqn:Ec; [|discriminate]. cbn [bind]. intros [= <-].
  assert (Hc : type_of t <> Training).
  { intros Ht. unfold get_spent_calories, Training_get_spent_calories in Ec. rewrite Ht in Ec. discriminate. }
  cbn [InfoMessage.duration InfoMessage.distance InfoMessage.speed InfoMessage.calories].
  split; [exact (mean_speed_duration_converts t sp Es)|].
  split; [exact (get_distance_float t di Ed)|].
  split; [exact (get_mean_speed_float t sp Es) | exact (get_spent_calories_float t ca Hc Ec)].
Qed.

(** C8: on CPython numbers every report [show_training_info] computes is
    printed: [get_message] never raises on it, since the distance, the
    speed and the calories are floats and the duration has been converted
    to a float to divide by it. *)
Theorem report_prints (t : training pynum) (m : InfoMessage.InfoMessage pynum) :
  show_training_info t = Ok m -> exists line, InfoMessage.get_message m = Ok line.
Proof.
  intros Hm. destruct (report_fields t m Hm) as (Hd & Hdi & Hsp & Hc).
  destruct m as [ty d [|fd] [|fs] [|fc]]; try discriminate.
  rewrite InfoMessage.get_message_render.
  cbn [InfoMessage.duration InfoMessage.distance InfoMessage.speed InfoMessage.calories] in *. cpython_ops.
  rewrite <- (format_fixed_ok _ 3) in Hd.
  destruct (Binary64.format d (FSFixed 3)); [|discriminate Hd].
  cbn [bind Binary64.format]. eauto.
Qed.

(** C10: an [int] action beyond the float range makes [get_distance] raise
    [OverflowError] in [action * LEN_STEP], so no report is computed, for
    every class and whatever the other readings (a zero duration
    included). *)
Theorem huge_action_overflow (t : training pynum) (a : Z) :
  action (attrs_of t) = PInt a -> float_is_inf (float_of_Q (inject_Z a)) = true ->
  get_distance t = Err OverflowError /\ show_training_info t = Err OverflowError.
Proof.
  intros Ha Hinf.
  assert (Hd : get_distance t = Err OverflowError).
  { unfold get_distance, Training_get_distance. rewrite Ha. unfold LEN_STEP.
    destruct (type_of t); cpython_ops; cbn [py_float PyArith_pynum arith to_float];
      unfold float_of_int; rewrite Hinf; reflexivity. }
  split; [exact Hd|]. unfold show_training_info. rewrite Hd. reflexivity.
Qed.

(** C3: on CPython numbers a zero duration ([0], [0.0] or [-0.0]) never
    gives a report: [show_training_info] raises [ZeroDivisionError] or
    [OverflowError] (an [int] reading beyond the float range), and
    [ZeroDivisionError] when the readings are floats. *)
Theorem zero_duration_no_report (t : training pynum) :
  is_zero_num (duration (attrs_of t)) = true ->
  exists e, show_training_info t = Err e /\ arith_exn e = true /\
    (forallb is_float (attr_values t) = true -> e = ZeroDivisionError).
Proof.
  intros Hz. unfold show_training_info.
  destruct (get_distance t) as [d|e] eqn:Ed; cbn [bind].
  - destruct (get_mean_speed t) as [v|e] eqn:Ev; [exfalso; exact (mean_speed_zero_duration t v Hz Ev)|].
    exists e. split; [reflexivity|]. split; [exact (get_mean_speed_errors t e Ev)|].
    intros Hf. destruct (mean_speed_zero_duration_floats t Hf Hz) as [_ Hs]. congruence.
  - exists e. split; [reflexivity|]. split; [exact (get_distance_errors t e Ed)|].
    intros Hf. destruct (mean_speed_zero_duration_floats t Hf Hz) as [[d Hd] _]. congruence.
Qed.

(** ** A sample *)

(** The walk's calories are not the exact [157.5]: [str] shows the
    rounding error of the float operations, which the ['.3f'] of the
    report hides. *)
Example walking_calories_repr :
  match show_training_info (TSportsWalking (mk_attrs (PInt 9000) (PInt 1) (PInt 75)) (PInt 180)) with
  | Ok m => Binary64.format (InfoMessage.calories m) FSDefault
  | Err e => Err e
  end = Ok "157.50000000000003".
Proof. vm_compute. reflexivity. Qed.

(** A run of 700 steps in an hour (0.455 km/h) burns negative calories,
    as CPython prints them. *)
Example slow_run_negative_calories :
  match show_training_info (TRunning (mk_attrs (PInt 700) (PInt 1) (PInt 75))) with
  | Ok m => InfoMessage.get_message m
  | Err e => Err e
  end = Ok "Тип тренировки: Running; Длительность: 1.000 ч.; Дистанция: 0.455 км; Ср. скорость: 0.455 км/ч; Потрачено ккал: -53.145.".
Proof. vm_compute. reflexivity. Qed.

Lemma report_prints_witness :
  exists m, show_training_info (TRunning (mk_attrs (PInt 15000) (PInt 1) (PInt 75))) = Ok m /\
    exists line, InfoMessage.get_message m = Ok line.
Proof.
  destruct (show_training_info (TRunning (mk_attrs (PInt 15000) (PInt 1) (PInt 75)))) as [m|e] eqn:E;
    [|vm_compute in E; discriminate E].
  exists m. split; [reflexivity | exact (report_prints _ m E)].
Defined.

Lemma zero_duration_no_report_witness :
  exists e, show_training_info (TRunning (mk_attrs (PFloat 15000) (PFloat (-0)) (PFloat 75))) = Err e /\
    arith_exn e = true /\
    (forallb is_float (attr_values (TRunning (mk_attrs (PFloat 15000) (PFloat (-0)) (PFloat 75)))) = true ->
     e = ZeroDivisionError).
Proof. apply zero_duration_no_report. vm_compute. reflexivity. Defined.

Lemma huge_action_overflow_witness :
  get_distance (TRunning (mk_attrs (PInt (10 ^ 400)) (PInt 0) (PInt 75))) = Err OverflowError /\
  show_training_info (TRunning (mk_attrs (PInt (10 ^ 400)) (PInt 0) (PInt 75))) = Err OverflowError.
Proof. apply (huge_action_overflow _ (10 ^ 400)); [reflexivity | vm_compute; reflexivity]. Defined.
