(* ===== verification/Walking.v ===== *)
(** * The walking formula on CPython's floats

    [SportsWalking.get_spent_calories] (lines 106-120) floor-divides the
    squared mean speed (km/h) by the height (cm).  On CPython's floats,
    [_float_div_mod] of a dividend below the divisor gives a zero
    ([IEEE.float_div_mod_small]) and the squared speed is never negative
    ([IEEE.pow_float_two_sign]), so whenever the squared speed is below the
    height the floor quotient is [0.0] and the calories do not depend on
    the height at all: the height term of the formula vanishes for every
    walk slower than [sqrt(height)] km/h.  A zero height never gives a
    report: the floor division raises. *)

From Stdlib Require Import ZArith QArith String List Lia Floats.
From S2P Require Import Prelude FixedPoint PyArith Binary64 IEEE StrFormat InfoMessage Training ReadPackage Errors FloatProps.
Import ListNotations CPython.
Local Open Scope string_scope.

#[local] Hint Resolve get_mean_speed_float : floats.

(** ** The floor division by the height *)

(** [sq ** 2] computed by the program is a float of positive sign. *)
Lemma pow_two_float (v : pynum) (sq : float) :
  py_pow v SportsWalking_COEFF_CALORIE_2 = Ok (PFloat sq) -> float_sign sq = false.
Proof.
  destruct v as [a|f]; cpython_ops; cbn [pow SportsWalking_COEFF_CALORIE_2].
  - destruct (0 <=? 2)%Z; [discriminate|]. intros H. inv_bind. subst.
    (* a negative exponent: not the case of [2] *) discriminate.
  - intros H. inv_bind. subst. eapply pow_float_two_sign. eassumption.
Qed.

(** [sq // h] is [0.0] when [sq] is a float of positive sign below the
    height converted to a float. *)
Lemma floordiv_below_height (sq : float) (h : pynum) (hf : float) :
  float_sign sq = false -> to_float h = Ok hf -> (sq <? hf)%float = true ->
  floordiv (PFloat sq) h = Ok (PFloat 0%float).
Proof.
  intros Hs Hh Hlt. pose proof (nonneg_of_sign sq hf Hs Hlt) as H0.
  destruct (small_shapes sq hf H0 Hlt) as [_ Hy].
  assert (Hz : float_is_zero hf = false).
  { rewrite float_is_zero_sf. destruct (Prim2SF hf) as [[]|[]| |[] ? ?]; easy. }
  unfold floordiv. destruct h; cbn [to_float] in Hh |- *; rewrite Hh; cbn [bind]; rewrite Hz;
    rewrite (float_div_mod_small sq hf H0 Hlt); unfold copysign_zero; rewrite Hs; reflexivity.
Qed.

(** C4: on CPython's floats, when the squared mean speed is below the
    height, [speed ** 2 // height] is [0.0] and the walking calories are the
    same for every such height: the height term of the formula vanishes. *)
Theorem walking_height_ignored (b : attrs pynum) (h h' : pynum) (sq hf hf' : float) :
  (let* v := get_mean_speed (TSportsWalking b h) in py_pow v SportsWalking_COEFF_CALORIE_2) = Ok (PFloat sq) ->
  to_float h = Ok hf -> to_float h' = Ok hf' ->
  (sq <? hf)%float = true -> (sq <? hf')%float = true ->
  py_floordiv (PFloat sq) h = Ok (PFloat 0%float) /\
  get_spent_calories (TSportsWalking b h) = get_spent_calories (TSportsWalking b h').
Proof.
  intros Hsq Hh Hh' Hlt Hlt'.
  destruct (get_mean_speed (TSportsWalking b h)) as [v|e] eqn:Ev; cbn [bind] in Hsq; [|discriminate].
  pose proof (pow_two_float v sq Hsq) as Hs.
  split; [exact (floordiv_below_height sq h hf Hs Hh Hlt)|].
  unfold get_spent_calories, SportsWalking_get_spent_calories. cbn [type_of get_height].
  change (get_mean_speed (TSportsWalking b h')) with (get_mean_speed (TSportsWalking b h)).
  rewrite Ev. destruct (py_mul _ _); cbn [bind]; [|reflexivity].
  rewrite Hsq. cbn [bind]. cpython_ops.
  rewrite (floordiv_below_height sq h hf Hs Hh Hlt), (floordiv_below_height sq h' hf' Hs Hh' Hlt').
  reflexivity.
Qed.

(** ** A zero height *)

Lemma truediv_floats_err (a b : float) (e : exn) :
  truediv (PFloat a) (PFloat b) = Err e -> e = ZeroDivisionError.
Proof. unfold truediv. cbn [to_float bind]. destruct (float_is_zero b); congruence. Qed.

Lemma get_distance_float_action (t : training pynum) :
  is_float (action (attrs_of t)) = true -> exists d, get_distance t = Ok d.
Proof.
  destruct t as [[a d w]|[a d w]|[a d w] h|[a d w] lp cp]; cbn [attrs_of action];
    destruct a as [|a]; try discriminate; intros _;
    unfold get_distance, Training_get_distance, LEN_STEP, M_IN_KM;
    cbn [type_of attrs_of action py_mul py_truediv py_int py_float PyArith_pynum arith to_float bind];
    rewrite float_truediv_1000; eauto.
Qed.

(** With a zero height the walking calories are never computed. *)
Lemma walking_calories_zero_height (b : attrs pynum) (h c : pynum) :
  is_zero_num h = true -> get_spent_calories (TSportsWalking b h) <> Ok c.
Proof.
  intros Hz Hc. unfold get_spent_calories, SportsWalking_get_spent_calories in Hc.
  cbn [type_of get_height] in Hc. inv_bind. subst. cpython_ops.
  match goal with H : floordiv ?x ?g = Ok _, Hp : pow _ _ = Ok ?x |- _ =>
    destruct (to_float_float x) as [a Ha]; [eapply pow_float_l; [exact Hp | eauto with floats]|];
    rewrite (proj2 (zero_divisor_converted x g a Ha Hz)) in H; discriminate H
  end.
Qed.

(** C9: on CPython's numbers a zero height ([0], [0.0] or [-0.0]) never
    gives a walking report: [show_training_info] raises
    [ZeroDivisionError] or [OverflowError], and on float readings it
    raises [ZeroDivisionError] unless the squared speed overflows. *)
Theorem walking_zero_height_no_report (b : attrs pynum) (h : pynum) :
  is_zero_num h = true ->
  exists e, show_training_info (TSportsWalking b h) = Err e /\ arith_exn e = true /\
    (forallb is_float (attr_values (TSportsWalking b h)) = true ->
     e = ZeroDivisionError \/
     exists v, get_mean_speed (TSportsWalking b h) = Ok v /\
               py_pow v SportsWalking_COEFF_CALORIE_2 = Err OverflowError).
Proof.
  intros Hz. set (t := TSportsWalking b h).
  assert (Hc : type_of t <> Training) by discriminate.
  unfold show_training_info.
  destruct (get_distance t) as [d|e] eqn:Ed; cbn [bind].
  2:{ exists e. split; [reflexivity|]. split; [exact (get_distance_errors t e Ed)|].
      intros Hf. exfalso. destruct b as [a du w]; destruct a as [|a]; [discriminate Hf|].
      destruct (get_distance_float_action t eq_refl) as [d' Hd']. congruence. }
  destruct (get_mean_speed t) as [v|e] eqn:Ev; cbn [bind].
  2:{ exists e. split; [reflexivity|]. split; [exact (get_mean_speed_errors t e Ev)|].
      intros Hf. left. destruct b as [a du w]. cbn in Hf.
      destruct du as [|fdu]; [rewrite !andb_false_r in Hf; discriminate Hf|].
      pose proof (get_distance_float t d Ed) as Hdf. destruct d as [|fd]; [discriminate Hdf|].
      unfold get_mean_speed, Training_get_mean_speed in Ev. cbn [type_of attrs_of duration] in Ev.
      fold t in Ev. rewrite Ed in Ev. cbn [bind] in Ev. cpython_ops.
      exact (truediv_floats_err fd fdu e Ev). }
  destruct (get_spent_calories t) as [c|e] eqn:Ec; cbn [bind].
  { exfalso. exact (walking_calories_zero_height b h c Hz Ec). }
  exists e. split; [reflexivity|]. split; [exact (get_spent_calories_errors t e Hc Ec)|].
  intros Hf. subst t. destruct b as [a du w]. cbn in Hf.
  destruct w as [|fw]; [rewrite !andb_false_r in Hf; discriminate Hf|].
  unfold get_spent_calories, SportsWalking_get_spent_calories in Ec.
  cbn [type_of get_height attrs_of weight] in Ec. rewrite Ev in Ec.
  cpython_ops. cbn [arith SportsWalking_COEFF_CALORIE_1 py_float PyArith_pynum to_float bind] in Ec.
  destruct (pow v SportsWalking_COEFF_CALORIE_2) as [sq|e'] eqn:Ep; cbn [bind] in Ec.
  - left. destruct (to_float_float sq) as [x Hx]; [eapply pow_float_l; [exact Ep | eauto with floats]|].
    rewrite (proj2 (zero_divisor_converted sq h x Hx Hz)) in Ec. cbn [bind] in Ec. congruence.
  - injection Ec as <-. pose proof (pow_errors v _ e' Ep) as He.
    destruct e'; try discriminate He; [left; reflexivity | right; exists v; split; [reflexivity | exact Ep]].
Qed.

(** ** Witnesses *)

(** The sample walk (speed [5.85] km/h, squared [34.2225]) at [180] and
    at [250] cm. *)
Lemma walking_height_ignored_witness :
  py_floordiv (PFloat (float_of_Q (342225 # 10000))) (PInt 180) = Ok (PFloat 0%float) /\
  get_spent_calories (TSportsWalking (mk_attrs (PInt 9000) (PInt 1) (PInt 75)) (PInt 180)) =
  get_spent_calories (TSportsWalking (mk_attrs (PInt 9000) (PInt 1) (PInt 75)) (PInt 250)).
Proof.
  apply (walking_height_ignored _ _ _ (float_of_Q (342225 # 10000)) 180 250); vm_compute; reflexivity.
Defined.

Lemma walking_zero_height_no_report_witness :
  exists e, show_training_info (TSportsWalking (mk_attrs (PFloat 9000) (PFloat 1) (PFloat 75)) (PFloat 0)) = Err e /\
    arith_exn e = true /\
    (forallb is_float (attr_values (TSportsWalking (mk_attrs (PFloat 9000) (PFloat 1) (PFloat 75)) (PFloat 0))) = true ->
     e = ZeroDivisionError \/
     exists v, get_mean_speed (TSportsWalking (mk_attrs (PFloat 9000) (PFloat 1) (PFloat 75)) (PFloat 0)) = Ok v /\
               py_pow v SportsWalking_COEFF_CALORIE_2 = Err OverflowError).
Proof. apply walking_zero_height_no_report. reflexivity. Defined.
