(* ===== verification/Rendering.v ===== *)
(** * The rendering contract of the report

    Section 8 of the spec: "for any computed summary record, the rendered
    string contains exactly three-decimal-place representations of
    duration, distance, speed, calories in that order".  On CPython's
    numbers, [get_message] ([InfoMessage]) renders each of the four fields
    with [format(x, '.3f')] ([Binary64.format_float]): the sign bit of the
    float, then its exact magnitude rounded half to even to three decimals
    ([FixedPoint.format_fixed]).  The theorem of this file puts the pieces
    together for every report the program computes: each rendered number
    reads back ([FixedPoint.parse_fixed]) with the sign bit of the field
    and a magnitude within half a unit of the third decimal of the field's
    exact value; a field that is an infinity or a NaN (a reading out of
    the float range) is rendered ["inf"], ["-inf"] or ["nan"], which the
    spec does not foresee. *)

From Stdlib Require Import ZArith QArith Qabs String List Lia Floats.
From S2P Require Import Prelude FixedPoint PyArith Binary64 IEEE StrFormat InfoMessage Training ReadPackage Errors FloatProps.
Import ListNotations CPython.
Local Open Scope string_scope.

(** [s] is the three-decimal rendering of the number [x]. *)
Definition renders_fixed3 (s : string) (x : pynum) : Prop :=
  exists f, to_float x = Ok f /\
  match Q_of_float f with
  | Some q => exists n, parse_fixed 3 s = Some (float_sign f, n) /\
               Qabs (inject_Z (Z.of_N n) * (1 # 1000) - Qabs q) <= 1 # 2000
  | None => s = "inf" \/ s = "-inf" \/ s = "nan"
  end.

(** ** Formatting a number *)

Lemma format_to_float (x : pynum) (p : nat) :
  Binary64.format x (FSFixed p) = let* f := to_float x in Ok (format_float f (FSFixed p)).
Proof. destruct x; reflexivity. Qed.

Lemma Q_of_float_some (f : float) (q : Q) :
  Q_of_float f = Some q -> float_is_nan f = false /\ float_is_inf f = false.
Proof.
  unfold Q_of_float, Q_of_sf. rewrite float_is_nan_sf, float_is_inf_sf.
  destruct (Prim2SF f); try discriminate; auto.
Qed.

Lemma Q_of_float_none (f : float) :
  Q_of_float f = None -> float_is_nan f = true \/ float_is_inf f = true.
Proof.
  unfold Q_of_float, Q_of_sf. rewrite float_is_nan_sf, float_is_inf_sf.
  destruct (Prim2SF f) as [| | |s m [|e|e]]; try discriminate; auto.
Qed.

(** [format(x, '.3f')] of a number that converts to a float is its
    three-decimal rendering. *)
Lemma format_renders (x : pynum) (f : float) :
  to_float x = Ok f -> exists s, Binary64.format x (FSFixed 3) = Ok s /\ renders_fixed3 s x.
Proof.
  intros Hx. exists (format_float f (FSFixed 3)). rewrite format_to_float, Hx.
  split; [reflexivity|]. exists f. split; [exact Hx|]. unfold format_float.
  destruct (Q_of_float f) as [q|] eqn:Eq.
  - destruct (Q_of_float_some f q Eq) as [Hn Hi]. rewrite Hn, Hi.
    exists (Z.to_N (scaled_round 3 (Qabs q))). split; [apply format_fixed_roundtrip|].
    rewrite Z2N.id by (apply scaled_round_nonneg, Qabs_nonneg).
    pose proof (format_fixed_error 3 (Qabs q)) as He. unfold scaled_value in He.
    change (10 ^ Z.of_nat 3)%Z with 1000%Z in He.
    change (inject_Z (scaled_round 3 (Qabs q)) * (1 # 1000))
      with (inject_Z (scaled_round 3 (Qabs q)) / inject_Z 1000).
    exact He.
  - destruct (Q_of_float_none f Eq) as [Hn|Hi]; [rewrite Hn; auto|].
    destruct (float_is_nan f); [auto|]. rewrite Hi. destruct (float_sign f); auto.
Qed.

(** ** The report *)

(** C1: on CPython's numbers, every report [show_training_info] computes
    is rendered by [get_message] as the template's text with the class
    name and the three-decimal renderings of the duration, the distance,
    the speed and the calories, in that order (section 8 of the spec). *)
Theorem report_renders_fixed3 (t : training pynum) (m : InfoMessage.InfoMessage pynum) :
  show_training_info t = Ok m ->
  exists sd sdi ssp sc,
    InfoMessage.get_message m =
      Ok ("Тип тренировки: " ++ InfoMessage.training_type m ++ "; Длительность: " ++ sd ++
          " ч.; Дистанция: " ++ sdi ++ " км; Ср. скорость: " ++ ssp ++
          " км/ч; Потрачено ккал: " ++ sc ++ ".") /\
    renders_fixed3 sd (InfoMessage.duration m) /\ renders_fixed3 sdi (InfoMessage.distance m) /\
    renders_fixed3 ssp (InfoMessage.speed m) /\ renders_fixed3 sc (InfoMessage.calories m).
Proof.
  intros Hm. destruct (report_fields t m Hm) as (Hd & Hdi & Hsp & Hc).
  destruct (to_float (InfoMessage.duration m)) as [fd|] eqn:Ed; [|discriminate Hd].
  destruct (to_float_float _ Hdi) as [fdi Edi]. destruct (to_float_float _ Hsp) as [fsp Esp].
  destruct (to_float_float _ Hc) as [fc Ec].
  destruct (format_renders _ _ Ed) as (sd & Fd & Rd).
  destruct (format_renders _ _ Edi) as (sdi & Fdi & Rdi).
  destruct (format_renders _ _ Esp) as (ssp & Fsp & Rsp).
  destruct (format_renders _ _ Ec) as (sc & Fc & Rc).
  exists sd, sdi, ssp, sc. rewrite InfoMessage.get_message_render. cpython_ops.
  rewrite Fd, Fdi, Fsp, Fc. cbn [bind]. auto.
Qed.

Lemma report_renders_fixed3_witness :
  exists m, show_training_info (TRunning (mk_attrs (PInt 15000) (PInt 1) (PInt 75))) = Ok m /\
  exists sd sdi ssp sc,
    InfoMessage.get_message m =
      Ok ("Тип тренировки: " ++ InfoMessage.training_type m ++ "; Длительность: " ++ sd ++
          " ч.; Дистанция: " ++ sdi ++ " км; Ср. скорость: " ++ ssp ++
          " км/ч; Потрачено ккал: " ++ sc ++ ".") /\
    renders_fixed3 sd (InfoMessage.duration m) /\ renders_fixed3 sdi (InfoMessage.distance m) /\
    renders_fixed3 ssp (InfoMessage.speed m) /\ renders_fixed3 sc (InfoMessage.calories m).
Proof.
  destruct (show_training_info (TRunning (mk_attrs (PInt 15000) (PInt 1) (PInt 75)))) as [m|e] eqn:E;
    [|vm_compute in E; discriminate E].
  exists m. split; [reflexivity | exact (report_renders_fixed3 _ m E)].
Defined.
